(** * Compressed section support of BFD (bfd/compress.c)

    A shallow embedding of [decompress_contents],
    [bfd_compress_section_contents], [bfd_get_full_section_contents],
    [bfd_cache_section_contents], [bfd_is_section_compressed_with_header],
    [bfd_is_section_compressed], [bfd_init_section_decompress_status],
    [bfd_init_section_compress_status] and [bfd_compress_section], followed
    by the properties of the section-compression subsystem that were checked
    against them.

    Conventions.  A C pointer to a byte buffer is an [option (list byte)]:
    [None] is [NULL], [Some bs] is a buffer holding [bs].  [bfd_size_type],
    [ufile_ptr] and zlib's [uLong] are 64-bit unsigned, [int] is 32-bit
    signed and zlib's [uInt] is 32-bit unsigned; all are [Z] with the
    conversions written out.  The section the C functions receive by pointer
    is threaded through a small state monad together with the BFD error
    variable and a trace of the calls made to the allocator and to the
    backing store. *)

From Stdlib Require Import String ZArith List Bool Lia.
From Stdlib Require Import Init.Byte.
Import ListNotations.
Local Open Scope Z_scope.

(* ================================================================== *)
(** * Machine integers *)

(** Conversion to [bfd_size_type] / [uLong] / [size_t]. *)
Definition to_size_type (x : Z) : Z := x mod 2 ^ 64.

(** Conversion to zlib's [uInt] and to C's [unsigned int]. *)
Definition to_uInt (x : Z) : Z := x mod 2 ^ 32.

(** Conversion to a 32-bit two's complement [int]. *)
Definition to_int (x : Z) : Z := (x + 2 ^ 31) mod 2 ^ 32 - 2 ^ 31.

(* ================================================================== *)
(** * Byte buffers *)

(** The bytes behind a [bfd_byte *]. *)
Definition bytes := list byte.

Definition byte_val (b : byte) : Z := Z.of_N (Byte.to_N b).

(** Length of a buffer as a [Z]. *)
Definition blen (b : bytes) : Z := Z.of_nat (length b).

(** [ptr + off]: the bytes found from offset [off] on. *)
Definition buf_at (b : bytes) (off : Z) : bytes := skipn (Z.to_nat off) b.

(** [memcpy (dst + off, src, n)] / [memmove]: [n] bytes of [src] replace the
    bytes of [dst] from offset [off]. *)
Definition buf_write (dst : bytes) (off : Z) (src : bytes) (n : Z) : bytes :=
  let data := firstn (Z.to_nat n) src in
  firstn (Z.to_nat off) dst ++ data
    ++ skipn (Z.to_nat off + length data) dst.

(** A freshly allocated block of [n] bytes (its contents are unspecified in
    C; the model fills it with zero bytes). *)
Definition fresh_buffer (n : Z) : bytes := repeat x00 (Z.to_nat n).

(** [header[i]] for an array read with an index. *)
Definition buf_get (b : bytes) (i : nat) : byte := nth i b x00.

(* ================================================================== *)
(** * zlib: return codes and the stream primitive *)

Definition Z_OK : Z := 0.
Definition Z_STREAM_END : Z := 1.
Definition Z_NEED_DICT : Z := 2.
Definition Z_STREAM_ERROR : Z := -2.
Definition Z_DATA_ERROR : Z := -3.
Definition Z_MEM_ERROR : Z := -4.
Definition Z_BUF_ERROR : Z := -5.

(** The fields of [z_stream] that compress.c reads and writes. *)
Record z_stream : Type := mk_z_stream {
  next_in : bytes;      (* the bytes at [next_in] *)
  avail_in : Z;          (* uInt *)
  avail_out : Z          (* uInt *)
}.

(** What one call [inflate (&strm, Z_FINISH)] on a freshly initialised or
    reset stream does: its return code, how many input bytes it took from
    [next_in] and the bytes it stored at [next_out]. *)
Record inflate_result : Type := mk_inflate_result {
  inf_rc : Z;
  inf_consumed : Z;
  inf_produced : bytes
}.

(** zlib is an external library; the functions of it that compress.c calls
    are gathered in one interface.  [zl_inflate window room] is
    [inflate (&strm, Z_FINISH)] seeing [window], the [avail_in] bytes at
    [next_in], with [room = avail_out] bytes of space.  [zl_inflateInit] is
    the code [inflateInit] returns ([Z_OK], or [Z_MEM_ERROR] and the like).
    [zl_compress src cap] is [compress (dest, &destLen, src, srcLen)] with
    [*destLen = cap] on entry: return code and the bytes stored at [dest],
    whose count is [*destLen] on return. *)
Record zlib : Type := mk_zlib {
  zl_inflateInit : Z;
  zl_inflate : bytes -> Z -> inflate_result;
  zl_compressBound : Z -> Z;
  zl_compress : bytes -> Z -> Z * bytes
}.

(** [inflateReset] and [inflateEnd] return [Z_OK] on a stream that
    [inflateInit] set up and [Z_STREAM_ERROR] on one it did not. *)
Definition inflateReset (zl : zlib) : Z :=
  if zl_inflateInit zl =? Z_OK then Z_OK else Z_STREAM_ERROR.

Definition inflateEnd (zl : zlib) : Z :=
  if zl_inflateInit zl =? Z_OK then Z_OK else Z_STREAM_ERROR.

(** The contract of [inflate] that the loop of [decompress_contents] relies
    on: it takes no more than [avail_in] bytes and stores no more than
    [avail_out]; a stream cannot end without input having been read; and with
    [Z_FINISH] the call never returns [Z_OK] (it is [Z_STREAM_END],
    [Z_BUF_ERROR] or an error). *)
Record inflate_contract (zl : zlib) : Prop := mk_inflate_contract {
  ic_consumed : forall w room,
    0 <= inf_consumed (zl_inflate zl w room) <= blen w;
  ic_produced : forall w room,
    0 <= room -> blen (inf_produced (zl_inflate zl w room)) <= room;
  ic_progress : forall w room,
    inf_rc (zl_inflate zl w room) = Z_STREAM_END ->
    0 < inf_consumed (zl_inflate zl w room);
  ic_finish : forall w room,
    inf_rc (zl_inflate zl w room) <> Z_OK
}.

(* ================================================================== *)
(** * decompress_contents *)

(** The [while] loop of [decompress_contents].  [out] is the memory at
    [uncompressed_buffer], [rc] the last return code.  Every iteration that
    continues has consumed input, so [fuel] counts iterations; [None] is a
    loop that is still running when the fuel is gone. *)
Fixpoint inflate_loop (zl : zlib) (uncompressed_size : Z) (fuel : nat)
    (strm : z_stream) (out : bytes) (rc : Z)
    : option (z_stream * bytes * Z) :=
  if (0 <? avail_in strm) && (0 <? avail_out strm) then
    if negb (rc =? Z_OK) then Some (strm, out, rc)
    else
      match fuel with
      | O => None
      | S fuel' =>
        let next_out := uncompressed_size - avail_out strm in
        let r := zl_inflate zl (firstn (Z.to_nat (avail_in strm)) (next_in strm))
                           (avail_out strm) in
        let strm' :=
          {| next_in := buf_at (next_in strm) (inf_consumed r);
             avail_in := avail_in strm - inf_consumed r;
             avail_out := avail_out strm - blen (inf_produced r) |} in
        let out' := buf_write out next_out (inf_produced r)
                              (blen (inf_produced r)) in
        if negb (inf_rc r =? Z_STREAM_END) then Some (strm', out', inf_rc r)
        else inflate_loop zl uncompressed_size fuel' strm' out' (inflateReset zl)
      end
  else Some (strm, out, rc).

(** [decompress_contents (compressed_buffer, compressed_size,
    uncompressed_buffer, uncompressed_size)]: the boolean it returns and the
    final contents of [uncompressed_buffer]. *)
Definition decompress_contents (zl : zlib)
    (compressed_buffer : bytes) (compressed_size : Z)
    (uncompressed_buffer : bytes) (uncompressed_size : Z)
    : option (bool * bytes) :=
  let strm := {| next_in := compressed_buffer;
                 avail_in := to_uInt compressed_size;
                 avail_out := to_uInt uncompressed_size |} in
  let rc := zl_inflateInit zl in
  match inflate_loop zl uncompressed_size (S (Z.to_nat (avail_in strm)))
                     strm uncompressed_buffer rc with
  | None => None
  | Some (strm', out, rc') =>
      Some ((inflateEnd zl =? Z_OK) && (rc' =? Z_OK) && (avail_out strm' =? 0),
            out)
  end.

(* ================================================================== *)
(** * Sections, BFDs and the collaborators of compress.c *)

(** [sec->compress_status] is a two-bit field with three named values. *)
Inductive compress_status_t : Type :=
| COMPRESS_SECTION_NONE      (* 0 *)
| COMPRESS_SECTION_DONE      (* 1 *)
| DECOMPRESS_SECTION_SIZED   (* 2 *)
| COMPRESS_STATUS_UNUSED.    (* 3: no name in bfd.h *)

(** The fields of [struct bfd_section] that compress.c touches. *)
Record asection : Type := mk_asection {
  name : string;
  flags : Z;
  size : Z;
  rawsize : Z;
  compressed_size : Z;
  alignment_power : Z;
  contents : option bytes;
  compress_status : compress_status_t
}.

Definition sec_ptr := asection.

(** Modelled from the spec: the section flag bits that bfd.h declares as
    [SEC_HAS_CONTENTS], [SEC_IN_MEMORY] and [SEC_LINKER_CREATED]. *)
Definition SEC_HAS_CONTENTS : Z := 0x100.
Definition SEC_IN_MEMORY : Z := 0x4000.
Definition SEC_LINKER_CREATED : Z := 0x100000.

Inductive bfd_direction : Type :=
| no_direction | read_direction | write_direction | both_direction.

Inductive bfd_flavour : Type :=
| bfd_target_unknown_flavour
| bfd_target_aout_flavour
| bfd_target_coff_flavour
| bfd_target_ecoff_flavour
| bfd_target_xcoff_flavour
| bfd_target_elf_flavour
| bfd_target_tekhex_flavour
| bfd_target_srec_flavour
| bfd_target_verilog_flavour
| bfd_target_ihex_flavour
| bfd_target_som_flavour
| bfd_target_msdos_flavour
| bfd_target_evax_flavour
| bfd_target_mmo_flavour
| bfd_target_mach_o_flavour
| bfd_target_pef_flavour
| bfd_target_sym_flavour.

Inductive bfd_error : Type :=
| bfd_error_no_error
| bfd_error_system_call
| bfd_error_wrong_format
| bfd_error_invalid_operation
| bfd_error_no_memory
| bfd_error_bad_value
| bfd_error_file_truncated.

(** The part of [struct bfd] that compress.c looks at.  [file_size] is what
    [bfd_get_file_size (abfd)] returns. *)
Record bfd : Type := mk_bfd {
  direction : bfd_direction;
  flavour : bfd_flavour;
  file_size : Z
}.

Definition bfd_get_flavour (abfd : bfd) : bfd_flavour := flavour abfd.
Definition bfd_get_file_size (abfd : bfd) : Z := file_size abfd.
Definition bfd_section_flags (sec : asection) : Z := flags sec.

Definition direction_eqb (a b : bfd_direction) : bool :=
  match a, b with
  | no_direction, no_direction | read_direction, read_direction
  | write_direction, write_direction | both_direction, both_direction => true
  | _, _ => false
  end.

Definition is_mmo_flavour (f : bfd_flavour) : bool :=
  match f with bfd_target_mmo_flavour => true | _ => false end.

Definition is_NONE (c : compress_status_t) : bool :=
  match c with COMPRESS_SECTION_NONE => true | _ => false end.

Definition is_NULL {A : Type} (p : option A) : bool :=
  match p with None => true | Some _ => false end.

(** Result of a read from the backing store. *)
Inductive io_result : Type :=
| IoOk (bytes : bytes)
| IoFail (e : bfd_error).

(** Modelled from the spec: the functions of BFD that compress.c calls and
    that live in other files (section.c, bfd.c, libbfd.c, opncls.c).
    - [get_compression_header_size abfd (Some sec)] is
      [bfd_get_compression_header_size (abfd, sec)], with [None] for a
      [NULL] section (the header size of the output format);
    - [get_section_contents abfd sec offset count] is the raw read
      [bfd_get_section_contents] of [count] bytes; it sees the section as it
      is at the time of the call;
    - [check_compression_header abfd header sec] decodes an embedded header:
      [Some (uncompressed_size, alignment_power)], or [None] when
      [bfd_check_compression_header] returns false;
    - [update_compression_header abfd contents sec] encodes the header of
      the output format at the start of [contents] and may adjust the
      section;
    - [malloc_ok size] and [alloc_ok size] say whether [bfd_malloc] and
      [bfd_alloc] find [size] bytes;
    - [zlib_of] is the zlib library linked in. *)
Record libbfd : Type := mk_libbfd {
  get_compression_header_size : bfd -> option asection -> Z;
  get_section_contents : bfd -> asection -> Z -> Z -> io_result;
  check_compression_header : bfd -> bytes -> asection -> option (Z * Z);
  update_compression_header : bfd -> bytes -> asection -> bytes * asection;
  malloc_ok : Z -> bool;
  alloc_ok : Z -> bool;
  zlib_of : zlib
}.

(* ================================================================== *)
(** * The state threaded through the C functions *)

(** Calls that leave the subsystem, in the order they are made. *)
Inductive event : Type :=
| EvMalloc (n : Z)             (* bfd_malloc (n) *)
| EvAlloc (n : Z)              (* bfd_alloc (abfd, n) *)
| EvFree                       (* free *)
| EvRelease                    (* bfd_release *)
| EvRead (offset count : Z)    (* bfd_get_section_contents *)
| EvMessage.                   (* _bfd_error_handler *)

Record machine : Type := mk_machine {
  m_sec : asection;            (* the section behind the [sec] pointer *)
  m_error : bfd_error;         (* what bfd_get_error () returns *)
  m_trace : list event
}.

Inductive outcome (A : Type) : Type :=
| Returned (a : A) (m : machine)   (* the function returned [a] *)
| Aborted                          (* abort () was called *)
| Diverged.                        (* a loop did not come to an end *)

Arguments Returned {A} a m.
Arguments Aborted {A}.
Arguments Diverged {A}.

Definition M (A : Type) : Type := machine -> outcome A.

Definition ret {A : Type} (a : A) : M A := fun m => Returned a m.

Definition bind {A B : Type} (c : M A) (k : A -> M B) : M B :=
  fun m => match c m with
           | Returned a m' => k a m'
           | Aborted => Aborted
           | Diverged => Diverged
           end.

Declare Scope bfd_scope.
Delimit Scope bfd_scope with bfd.
Notation "x <- c1 ;; c2" := (bind c1 (fun x => c2))
  (at level 61, c1 at next level, right associativity) : bfd_scope.
Notation "' pat <- c1 ;; c2" :=
  (bind c1 (fun x => match x with pat => c2 end))
  (at level 61, pat pattern, c1 at next level, right associativity) : bfd_scope.
Notation "c1 ;; c2" := (bind c1 (fun _ => c2))
  (at level 61, right associativity) : bfd_scope.
Local Open Scope bfd_scope.

Definition abort {A : Type} : M A := fun _ => Aborted.
Definition diverge {A : Type} : M A := fun _ => Diverged.

Definition get_sec : M asection := fun m => Returned (m_sec m) m.

Definition modify_sec (f : asection -> asection) : M unit :=
  fun m => Returned tt {| m_sec := f (m_sec m); m_error := m_error m;
                          m_trace := m_trace m |}.

Definition emit (e : event) : M unit :=
  fun m => Returned tt {| m_sec := m_sec m; m_error := m_error m;
                          m_trace := m_trace m ++ [e] |}.

Definition bfd_set_error (e : bfd_error) : M unit :=
  fun m => Returned tt {| m_sec := m_sec m; m_error := e;
                          m_trace := m_trace m |}.

Definition bfd_get_error : M bfd_error := fun m => Returned (m_error m) m.

Definition _bfd_error_handler : M unit := emit EvMessage.

(** Assignments to the fields of [*sec]. *)
Definition with_flags (v : Z) (s : asection) : asection :=
  mk_asection (name s) v (size s) (rawsize s) (compressed_size s)
              (alignment_power s) (contents s) (compress_status s).
Definition with_size (v : Z) (s : asection) : asection :=
  mk_asection (name s) (flags s) v (rawsize s) (compressed_size s)
              (alignment_power s) (contents s) (compress_status s).
Definition with_rawsize (v : Z) (s : asection) : asection :=
  mk_asection (name s) (flags s) (size s) v (compressed_size s)
              (alignment_power s) (contents s) (compress_status s).
Definition with_compressed_size (v : Z) (s : asection) : asection :=
  mk_asection (name s) (flags s) (size s) (rawsize s) v
              (alignment_power s) (contents s) (compress_status s).
Definition with_alignment_power (v : Z) (s : asection) : asection :=
  mk_asection (name s) (flags s) (size s) (rawsize s) (compressed_size s)
              v (contents s) (compress_status s).
Definition with_contents (v : option bytes) (s : asection) : asection :=
  mk_asection (name s) (flags s) (size s) (rawsize s) (compressed_size s)
              (alignment_power s) v (compress_status s).
Definition with_compress_status (v : compress_status_t) (s : asection)
    : asection :=
  mk_asection (name s) (flags s) (size s) (rawsize s) (compressed_size s)
              (alignment_power s) (contents s) v.

(** Modelled from the spec: [bfd_set_section_alignment] of bfd.h stores the
    alignment power in the section. *)
Definition bfd_set_section_alignment (val : Z) : M unit :=
  modify_sec (with_alignment_power val).

(** [bfd_malloc]: [NULL] and [bfd_error_no_memory] when the memory is not
    there. *)
Definition bfd_malloc (lib : libbfd) (n : Z) : M (option bytes) :=
  emit (EvMalloc n) ;;
  if malloc_ok lib n then ret (Some (fresh_buffer n))
  else bfd_set_error bfd_error_no_memory ;; ret None.

Definition bfd_alloc (lib : libbfd) (n : Z) : M (option bytes) :=
  emit (EvAlloc n) ;;
  if alloc_ok lib n then ret (Some (fresh_buffer n))
  else bfd_set_error bfd_error_no_memory ;; ret None.

Definition free : M unit := emit EvFree.
Definition bfd_release : M unit := emit EvRelease.

(** [bfd_get_section_contents (abfd, sec, location, 0, count)]: on success
    the bytes read are stored at [location]; on failure the collaborator has
    set the BFD error. *)
Definition bfd_get_section_contents (lib : libbfd) (abfd : bfd)
    (location : bytes) (offset count : Z) : M (option bytes) :=
  sec <- get_sec ;;
  emit (EvRead offset count) ;;
  match get_section_contents lib abfd sec offset count with
  | IoOk bytes => ret (Some (buf_write location 0 bytes count))
  | IoFail e => bfd_set_error e ;; ret None
  end.

Definition bfd_get_compression_header_size (lib : libbfd) (abfd : bfd)
    (sec : option asection) : Z :=
  get_compression_header_size lib abfd sec.

Definition bfd_update_compression_header (lib : libbfd) (abfd : bfd)
    (buf : bytes) : M bytes :=
  sec <- get_sec ;;
  let '(buf', sec') := update_compression_header lib abfd buf sec in
  modify_sec (fun _ => sec') ;;
  ret buf'.

(* ================================================================== *)
(** * Header helpers used by compress.c *)

Definition MAX_COMPRESSION_HEADER_SIZE : Z := 24.

(** The bytes of the string "ZLIB". *)
Definition ZLIB_magic : bytes := [x5a; x4c; x49; x42].

Fixpoint buffer_eqb (a b : bytes) : bool :=
  match a, b with
  | [], [] => true
  | x :: a', y :: b' => Byte.eqb x y && buffer_eqb a' b'
  | _, _ => false
  end.

(** Modelled from the spec: [startswith (str, prefix)] of bfd.h, which
    compares the first [strlen (prefix)] bytes. *)
Definition startswith (str prefix : bytes) : bool :=
  buffer_eqb (firstn (length prefix) str) prefix.

(** Modelled from the spec: [bfd_getb64] of libbfd.c reads eight bytes as a
    big-endian unsigned number. *)
Definition bfd_getb64 (p : bytes) : Z :=
  fold_left (fun acc b => acc * 256 + byte_val b)
            (firstn 8 (p ++ repeat x00 8)) 0.

(** Modelled from the spec: [ISPRINT] of safe-ctype.h holds of the printable
    characters, the space and the graphic characters of ASCII. *)
Definition ISPRINT (c : byte) : bool :=
  (0x20 <=? byte_val c) && (byte_val c <=? 0x7e).

(** [strcmp (sec->name, ".debug_str") == 0]. *)
Definition is_debug_str (s : asection) : bool :=
  String.eqb (name s) ".debug_str".

(* ================================================================== *)
(** * bfd_is_section_compressed_with_header *)

(** What the function hands back: its return value and the three output
    parameters. *)
Record detection : Type := mk_detection {
  det_compressed : bool;
  det_header_size : Z;             (* *compression_header_size_p *)
  det_uncompressed_size : Z;       (* *uncompressed_size_p *)
  det_align_pow : Z                (* *uncompressed_align_pow_p *)
}.

Definition bfd_is_section_compressed_with_header (lib : libbfd) (abfd : bfd)
    : M detection :=
  sec0 <- get_sec ;;
  let saved := compress_status sec0 in
  let align_pow0 := 0 in
  let compression_header_size :=
    bfd_get_compression_header_size lib abfd (Some sec0) in
  if MAX_COMPRESSION_HEADER_SIZE <? compression_header_size then abort
  else
    let header_size :=
      if compression_header_size =? 0 then 12 else compression_header_size in
    (* Don't decompress the section.  *)
    modify_sec (with_compress_status COMPRESS_SECTION_NONE) ;;
    (* Read the header.  *)
    r <- bfd_get_section_contents lib abfd
           (fresh_buffer MAX_COMPRESSION_HEADER_SIZE) 0
           (to_size_type header_size) ;;
    let header :=
      match r with
      | Some h => h
      | None => fresh_buffer MAX_COMPRESSION_HEADER_SIZE
      end in
    let compressed :=
      match r with
      | Some _ =>
          if compression_header_size =? 0 then startswith header ZLIB_magic
          else true
      | None => false
      end in
    sec <- get_sec ;;
    let usize0 := size sec in
    let '(compressed, compression_header_size, usize, align_pow) :=
      if compressed then
        if negb (compression_header_size =? 0) then
          match check_compression_header lib abfd header sec with
          | Some (us, ap) => (compressed, compression_header_size, us, ap)
          | None => (compressed, -1, usize0, align_pow0)
          end
        else if is_debug_str sec && ISPRINT (buf_get header 4) then
          (false, compression_header_size, usize0, align_pow0)
        else
          (compressed, compression_header_size,
           bfd_getb64 (buf_at header 4), align_pow0)
      else (compressed, compression_header_size, usize0, align_pow0) in
    (* Restore compress_status.  *)
    modify_sec (with_compress_status saved) ;;
    ret (mk_detection compressed compression_header_size usize align_pow).

(** * bfd_is_section_compressed *)
Definition bfd_is_section_compressed (lib : libbfd) (abfd : bfd) : M bool :=
  d <- bfd_is_section_compressed_with_header lib abfd ;;
  ret (det_compressed d && (0 <=? det_header_size d)
       && (0 <? det_uncompressed_size d)).

(* ================================================================== *)
(** * bfd_get_full_section_contents *)

(** The size the function works with: [sec->rawsize] when the BFD is not
    open for writing and a raw size is recorded, [sec->size] otherwise. *)
Definition full_contents_size (abfd : bfd) (sec : asection) : Z :=
  if negb (direction_eqb (direction abfd) write_direction)
     && negb (rawsize sec =? 0)
  then rawsize sec else size sec.

(** The test that guards the allocation in the [COMPRESS_SECTION_NONE]
    case. *)
Definition size_exceeds_file (abfd : bfd) (sec : asection) (sz : Z) : bool :=
  let filesize := bfd_get_file_size abfd in
  (0 <? filesize)
  && (filesize <? sz)
  && (Z.land (bfd_section_flags sec) SEC_LINKER_CREATED =? 0)
  && negb (Z.land (bfd_section_flags sec) SEC_HAS_CONTENTS =? 0)
  && negb (is_mmo_flavour (bfd_get_flavour abfd)).

(** [ptr] is [*ptr] on entry, with the bytes of the caller's buffer when
    there is one; the result is the return value and [*ptr] on exit, with
    the bytes that buffer then holds. *)
Definition bfd_get_full_section_contents (lib : libbfd) (abfd : bfd)
    (ptr : option bytes) : M (bool * option bytes) :=
  sec <- get_sec ;;
  let p := ptr in
  let sz := full_contents_size abfd sec in
  if sz =? 0 then ret (true, None)
  else
    match compress_status sec with
    | COMPRESS_SECTION_NONE =>
        let read_into (p : bytes) : M (bool * option bytes) :=
          r <- bfd_get_section_contents lib abfd p 0 sz ;;
          match r with
          | None => (if is_NULL ptr then free else ret tt) ;; ret (false, ptr)
          | Some p' => ret (true, Some p')
          end in
        match p with
        | None =>
            if size_exceeds_file abfd sec sz then
              bfd_set_error bfd_error_file_truncated ;;
              _bfd_error_handler ;;
              ret (false, ptr)
            else
              p <- bfd_malloc lib sz ;;
              match p with
              | None =>
                  e <- bfd_get_error ;;
                  (match e with
                   | bfd_error_no_memory => _bfd_error_handler
                   | _ => ret tt
                   end) ;;
                  ret (false, ptr)
              | Some p => read_into p
              end
        | Some p => read_into p
        end

    | DECOMPRESS_SECTION_SIZED =>
        (* Read in the full compressed section contents.  *)
        cb <- bfd_malloc lib (compressed_size sec) ;;
        match cb with
        | None => ret (false, ptr)
        | Some compressed_buffer =>
            let save_rawsize := rawsize sec in
            let save_size := size sec in
            modify_sec (with_rawsize 0) ;;
            modify_sec (with_size (compressed_size sec)) ;;
            modify_sec (with_compress_status COMPRESS_SECTION_NONE) ;;
            r <- bfd_get_section_contents lib abfd compressed_buffer 0
                   (compressed_size sec) ;;
            (* Restore rawsize and size.  *)
            modify_sec (with_rawsize save_rawsize) ;;
            modify_sec (with_size save_size) ;;
            modify_sec (with_compress_status DECOMPRESS_SECTION_SIZED) ;;
            let fail_compressed : M (bool * option bytes) :=
              free ;; ret (false, ptr) in
            match r with
            | None => fail_compressed
            | Some compressed_buffer =>
                p <- (match p with
                      | None => bfd_malloc lib sz
                      | Some _ => ret p
                      end) ;;
                match p with
                | None => fail_compressed
                | Some p =>
                    sec' <- get_sec ;;
                    let chs := to_uInt
                      (bfd_get_compression_header_size lib abfd (Some sec')) in
                    let compression_header_size :=
                      if chs =? 0 then 12 else chs in
                    match decompress_contents (zlib_of lib)
                            (buf_at compressed_buffer compression_header_size)
                            (to_size_type (compressed_size sec'
                                           - compression_header_size))
                            p sz with
                    | None => diverge
                    | Some (false, p') =>
                        bfd_set_error bfd_error_bad_value ;;
                        (if is_NULL ptr then free else ret tt) ;;
                        (* fail_compressed: *ptr is not assigned; a buffer
                           of the caller keeps what the decompression wrote
                           into it *)
                        free ;;
                        ret (false,
                             match ptr with
                             | Some _ => Some p'
                             | None => None
                             end)
                    | Some (true, p') =>
                        free ;;
                        ret (true, Some p')
                    end
                end
            end
        end

    | COMPRESS_SECTION_DONE =>
        match contents sec with
        | None => ret (false, ptr)
        | Some c =>
            p <- (match p with
                  | None => bfd_malloc lib sz
                  | Some _ => ret p
                  end) ;;
            match p with
            | None => ret (false, ptr)
            | Some p =>
                (* p != sec->contents: a copy of the contents onto a buffer
                   that already holds them changes nothing *)
                ret (true, Some (buf_write p 0 c sz))
            end
        end

    | COMPRESS_STATUS_UNUSED => abort
    end.

(* ================================================================== *)
(** * bfd_cache_section_contents *)

Definition bfd_cache_section_contents (new_contents : option bytes) : M unit :=
  sec <- get_sec ;;
  (match compress_status sec with
   | DECOMPRESS_SECTION_SIZED =>
       modify_sec (with_compress_status COMPRESS_SECTION_DONE)
   | _ => ret tt
   end) ;;
  modify_sec (with_contents new_contents) ;;
  sec' <- get_sec ;;
  modify_sec (with_flags (Z.lor (flags sec') SEC_IN_MEMORY)).

(* ================================================================== *)
(** * bfd_compress_section_contents *)

Definition bfd_compress_section_contents (lib : libbfd) (abfd : bfd)
    (uncompressed_buffer : bytes) (uncompressed_size : Z) : M Z :=
  let header_size0 := bfd_get_compression_header_size lib abfd None in
  d <- bfd_is_section_compressed_with_header lib abfd ;;
  let compressed := det_compressed d in
  let orig_uncompressed_size := det_uncompressed_size d in
  let orig_uncompressed_alignment_pow := det_align_pow d in
  (* Either ELF compression header or the 12-byte, "ZLIB" + 8-byte size,
     overhead in .zdebug* section.  *)
  let header_size := if header_size0 =? 0 then 12 else header_size0 in
  if compressed && (det_header_size d <? 0) then
    (* We shouldn't decompress unsupported compressed section.  *)
    abort
  else
    let orig_compression_header_size :=
      if compressed && (det_header_size d =? 0) then 12
      else det_header_size d in
    let zlib_size :=
      if compressed then
        to_int (to_size_type (uncompressed_size - orig_compression_header_size))
      else 0 in
    let compressed_size0 :=
      if compressed then
        (* Add the header size.  *)
        to_size_type (to_int (zlib_size + header_size))
      else
        to_size_type (zl_compressBound (zlib_of lib) uncompressed_size
                      + header_size) in
    (* Uncompress if it leads to smaller size.  *)
    let decompress :=
      compressed && (orig_uncompressed_size <? compressed_size0) in
    let buffer_size :=
      if decompress then orig_uncompressed_size else compressed_size0 in
    b <- bfd_alloc lib buffer_size ;;
    match b with
    | None => ret 0
    | Some buffer =>
        let finish (buffer : bytes) (compressed_size : Z) : M Z :=
          free ;;
          modify_sec (with_contents (Some buffer)) ;;
          modify_sec (with_size compressed_size) ;;
          modify_sec (with_compress_status COMPRESS_SECTION_DONE) ;;
          ret uncompressed_size in
        if compressed then
          modify_sec (with_size orig_uncompressed_size) ;;
          if decompress then
            match decompress_contents (zlib_of lib)
                    (buf_at uncompressed_buffer orig_compression_header_size)
                    (to_size_type zlib_size) buffer buffer_size with
            | None => diverge
            | Some (false, _) =>
                bfd_set_error bfd_error_bad_value ;;
                bfd_release ;;
                ret 0
            | Some (true, buffer') =>
                free ;;
                bfd_set_section_alignment orig_uncompressed_alignment_pow ;;
                modify_sec (with_contents (Some buffer')) ;;
                modify_sec (with_compress_status COMPRESS_SECTION_DONE) ;;
                ret orig_uncompressed_size
            end
          else
            buffer' <- bfd_update_compression_header lib abfd buffer ;;
            finish (buf_write buffer' header_size
                      (buf_at uncompressed_buffer orig_compression_header_size)
                      (to_size_type zlib_size))
                   compressed_size0
        else
          let '(rc, out) :=
            zl_compress (zlib_of lib)
              (firstn (Z.to_nat uncompressed_size) uncompressed_buffer)
              compressed_size0 in
          if negb (rc =? Z_OK) then
            bfd_release ;;
            bfd_set_error bfd_error_bad_value ;;
            ret 0
          else
            let buffer := buf_write buffer header_size out (blen out) in
            let compressed_size := to_size_type (blen out + header_size) in
            (* PR binutils/18087: If compression didn't make the section
               smaller, just keep it uncompressed.  *)
            if compressed_size <? uncompressed_size then
              buffer' <- bfd_update_compression_header lib abfd buffer ;;
              finish buffer' compressed_size
            else
              bfd_release ;;
              modify_sec (with_contents (Some uncompressed_buffer)) ;;
              modify_sec (with_compress_status COMPRESS_SECTION_NONE) ;;
              ret uncompressed_size
    end.

(* ================================================================== *)
(** * bfd_init_section_decompress_status *)

Definition bfd_init_section_decompress_status (lib : libbfd) (abfd : bfd)
    : M bool :=
  sec <- get_sec ;;
  let uncompressed_alignment_power0 := 0 in
  let compression_header_size :=
    bfd_get_compression_header_size lib abfd (Some sec) in
  if MAX_COMPRESSION_HEADER_SIZE <? compression_header_size then abort
  else
    let header_size :=
      if compression_header_size =? 0 then 12 else compression_header_size in
    let invalid : M bool :=
      bfd_set_error bfd_error_invalid_operation ;; ret false in
    let wrong_format : M bool :=
      bfd_set_error bfd_error_wrong_format ;; ret false in
    if negb (rawsize sec =? 0)
       || negb (is_NULL (contents sec))
       || negb (is_NONE (compress_status sec))
    then invalid
    else
      r <- bfd_get_section_contents lib abfd
             (fresh_buffer MAX_COMPRESSION_HEADER_SIZE) 0
             (to_size_type header_size) ;;
      match r with
      | None => invalid
      | Some header =>
          let finish (uncompressed_size uncompressed_alignment_power : Z)
              : M bool :=
            s <- get_sec ;;
            modify_sec (with_compressed_size (size s)) ;;
            modify_sec (with_size uncompressed_size) ;;
            bfd_set_section_alignment uncompressed_alignment_power ;;
            modify_sec (with_compress_status DECOMPRESS_SECTION_SIZED) ;;
            ret true in
          if compression_header_size =? 0 then
            if negb (startswith header ZLIB_magic) then wrong_format
            else finish (bfd_getb64 (buf_at header 4))
                        uncompressed_alignment_power0
          else
            s <- get_sec ;;
            match check_compression_header lib abfd header s with
            | None => wrong_format
            | Some (us, ap) => finish us ap
            end
      end.

(* ================================================================== *)
(** * bfd_init_section_compress_status *)

Definition bfd_init_section_compress_status (lib : libbfd) (abfd : bfd)
    : M bool :=
  sec <- get_sec ;;
  (* Error if not opened for read.  *)
  if negb (direction_eqb (direction abfd) read_direction)
     || (size sec =? 0)
     || negb (rawsize sec =? 0)
     || negb (is_NULL (contents sec))
     || negb (is_NONE (compress_status sec))
  then bfd_set_error bfd_error_invalid_operation ;; ret false
  else
    (* Read in the full section contents and compress it.  *)
    let uncompressed_size := size sec in
    b <- bfd_malloc lib uncompressed_size ;;
    match b with
    | None => ret false
    | Some uncompressed_buffer =>
        r <- bfd_get_section_contents lib abfd uncompressed_buffer 0
               uncompressed_size ;;
        match r with
        | None => ret false
        | Some uncompressed_buffer =>
            n <- bfd_compress_section_contents lib abfd uncompressed_buffer
                   uncompressed_size ;;
            ret (negb (n =? 0))
        end
    end.

(* ================================================================== *)
(** * bfd_compress_section *)

Definition bfd_compress_section (lib : libbfd) (abfd : bfd)
    (uncompressed_buffer : option bytes) : M bool :=
  sec <- get_sec ;;
  let uncompressed_size := size sec in
  (* Error if not opened for write.  *)
  if negb (direction_eqb (direction abfd) write_direction)
     || (uncompressed_size =? 0)
     || is_NULL uncompressed_buffer
     || negb (is_NULL (contents sec))
     || negb (compressed_size sec =? 0)
     || negb (is_NONE (compress_status sec))
  then bfd_set_error bfd_error_invalid_operation ;; ret false
  else
    match uncompressed_buffer with
    | None => ret false
    | Some ub =>
        (* Compress it.  *)
        n <- bfd_compress_section_contents lib abfd ub uncompressed_size ;;
        ret (negb (n =? 0))
    end.

(* ================================================================== *)
(** * Predicates used in the statements *)

(** A run of the decompression loop described without fuel and without
    return-code threading: starting with [ain] bytes of input at [inp] and
    [aout] bytes of room, blocks are decoded one after the other, each ending
    in [Z_STREAM_END], until the room is used up.  Input that is left at that
    point is not looked at. *)
Inductive blocks_fill (zl : zlib) : bytes -> Z -> Z -> Prop :=
| blocks_fill_full : forall inp ain,
    blocks_fill zl inp ain 0
| blocks_fill_block : forall inp ain aout,
    0 < ain -> 0 < aout ->
    inf_rc (zl_inflate zl (firstn (Z.to_nat ain) inp) aout) = Z_STREAM_END ->
    blocks_fill zl
      (buf_at inp (inf_consumed (zl_inflate zl (firstn (Z.to_nat ain) inp) aout)))
      (ain - inf_consumed (zl_inflate zl (firstn (Z.to_nat ain) inp) aout))
      (aout - blen (inf_produced (zl_inflate zl (firstn (Z.to_nat ain) inp) aout))) ->
    blocks_fill zl inp ain aout.

(** The success condition in the words of the specification of the stream
    decompressor: the input is a concatenation of blocks, each reaching its
    own end of stream, that takes up every input byte and fills the output
    exactly. *)
Inductive decodes_whole_input (zl : zlib) : bytes -> Z -> Z -> Prop :=
| decodes_nothing_left : forall inp,
    decodes_whole_input zl inp 0 0
| decodes_block : forall inp ain aout,
    0 < ain ->
    inf_rc (zl_inflate zl (firstn (Z.to_nat ain) inp) aout) = Z_STREAM_END ->
    decodes_whole_input zl
      (buf_at inp (inf_consumed (zl_inflate zl (firstn (Z.to_nat ain) inp) aout)))
      (ain - inf_consumed (zl_inflate zl (firstn (Z.to_nat ain) inp) aout))
      (aout - blen (inf_produced (zl_inflate zl (firstn (Z.to_nat ain) inp) aout))) ->
    decodes_whole_input zl inp ain aout.

(** The two directions of "[contents] is set iff the state is Done". *)
Definition done_has_contents (s : asection) : Prop :=
  compress_status s = COMPRESS_SECTION_DONE -> contents s <> None.

Definition contents_iff_done (s : asection) : Prop :=
  contents s <> None <-> compress_status s = COMPRESS_SECTION_DONE.

(** The section an outcome leaves behind satisfies [P]; nothing is asked of
    a call that did not return. *)
Definition leaves {A : Type} (P : asection -> Prop) (o : outcome A) : Prop :=
  match o with
  | Returned _ m => P (m_sec m)
  | Aborted | Diverged => True
  end.

(* ================================================================== *)
(** * A concrete codec and a concrete BFD, to run the functions *)

(** A stream codec with the interface of zlib in which a block is a length
    byte followed by that many literal bytes.  [stored_inflate] ends a
    stream only after a whole block, and reports [Z_BUF_ERROR] for a block
    that is cut short or does not fit the room. *)
Definition stored_inflate (w : bytes) (room : Z) : inflate_result :=
  match w with
  | [] => mk_inflate_result Z_BUF_ERROR 0 []
  | n :: rest =>
      let len := byte_val n in
      if (blen rest <? len) || (room <? len) then
        mk_inflate_result Z_BUF_ERROR 1 []
      else
        mk_inflate_result Z_STREAM_END (1 + len) (firstn (Z.to_nat len) rest)
  end.

Definition stored_compress (src : bytes) (cap : Z) : Z * bytes :=
  match Byte.of_N (N.of_nat (length src)) with
  | Some n =>
      if cap <? 1 + blen src then (Z_BUF_ERROR, [])
      else (Z_OK, n :: src)
  | None => (Z_BUF_ERROR, [])
  end.

Definition stored_zlib : zlib :=
  mk_zlib Z_OK stored_inflate (fun n => n + 1) stored_compress.

(** A 24-byte embedded header for the concrete BFD: a type byte [1], seven
    bytes of padding, the uncompressed size in eight big-endian bytes, seven
    bytes of padding and the alignment power. *)
Definition demo_check_header (header : bytes) : option (Z * Z) :=
  if Byte.eqb (buf_get header 0) x01
  then Some (bfd_getb64 (buf_at header 8), byte_val (buf_get header 23))
  else None.

Definition byte_of_Z (v : Z) : byte :=
  match Byte.of_N (Z.to_N v) with
  | Some b => b
  | None => x00
  end.

(** Eight big-endian bytes of a number. *)
Definition demo_putb64 (v : Z) : bytes :=
  map (fun i => byte_of_Z ((v / 256 ^ i) mod 256)) [7; 6; 5; 4; 3; 2; 1; 0].

(** The header encoder of the concrete BFD: the legacy header "ZLIB" and
    size when the output format has no embedded header, the 24-byte header
    above otherwise. *)
Definition demo_update_header (out_hs : Z) (buf : bytes) (sec : asection)
    : bytes * asection :=
  if out_hs =? 0 then
    (buf_write buf 0 (ZLIB_magic ++ demo_putb64 (size sec)) 12,
     with_alignment_power 0 sec)
  else
    (buf_write buf 0
       ([x01] ++ repeat x00 7 ++ demo_putb64 (size sec) ++ repeat x00 7
        ++ [byte_of_Z (alignment_power sec)]) 24,
     sec).

(** A BFD library over a byte image of the section on file.  [in_hs] is the
    embedded-header size of the sections read, [out_hs] that of the output
    format; reads beyond the section size fail as in section.c. *)
Definition demo_lib (in_hs out_hs : Z) (image : bytes) : libbfd :=
  mk_libbfd
    (fun _ sec => match sec with Some _ => in_hs | None => out_hs end)
    (fun abfd sec offset count =>
       if full_contents_size abfd sec <? offset + count
       then IoFail bfd_error_bad_value
       else IoOk (firstn (Z.to_nat count) (buf_at image offset)))
    (fun _ header _ => demo_check_header header)
    (fun _ buf sec => demo_update_header out_hs buf sec)
    (fun n => n <? 2 ^ 20)
    (fun n => n <? 2 ^ 20)
    stored_zlib.

Definition demo_section (nm : string) (fl sz : Z) (st : compress_status_t)
    : asection :=
  mk_asection nm fl sz 0 0 0 None st.

Definition start (s : asection) : machine :=
  mk_machine s bfd_error_no_error [].

(** A second codec with the interface of zlib, which does compress: a
    block is a count and a byte and stands for that many copies of the
    byte.  [run_compress] encodes an input that is one run and refuses any
    other. *)
Definition run_inflate (w : bytes) (room : Z) : inflate_result :=
  match w with
  | n :: b :: _ =>
      if room <? byte_val n then mk_inflate_result Z_BUF_ERROR 2 []
      else mk_inflate_result Z_STREAM_END 2 (repeat b (Z.to_nat (byte_val n)))
  | _ => mk_inflate_result Z_BUF_ERROR 0 []
  end.

Definition run_compress (src : bytes) (cap : Z) : Z * bytes :=
  match src with
  | b :: rest =>
      if forallb (Byte.eqb b) rest && (blen src <? 256) && (2 <=? cap)
      then (Z_OK, [byte_of_Z (blen src); b])
      else (Z_BUF_ERROR, [])
  | [] => (Z_BUF_ERROR, [])
  end.

Definition run_zlib : zlib :=
  mk_zlib Z_OK run_inflate (fun n => n + 2) run_compress.

(** The concrete BFD library with the run codec in place of the stored
    one. *)
Definition run_lib (in_hs out_hs : Z) (image : bytes) : libbfd :=
  mk_libbfd
    (get_compression_header_size (demo_lib in_hs out_hs image))
    (get_section_contents (demo_lib in_hs out_hs image))
    (check_compression_header (demo_lib in_hs out_hs image))
    (update_compression_header (demo_lib in_hs out_hs image))
    (malloc_ok (demo_lib in_hs out_hs image))
    (alloc_ok (demo_lib in_hs out_hs image))
    run_zlib.

(** The concrete BFD library over a backing store that cannot be read:
    every read fails with error [e]. *)
Definition unreadable_lib (e : bfd_error) : libbfd :=
  mk_libbfd
    (get_compression_header_size (demo_lib 0 0 []))
    (fun _ _ _ _ => IoFail e)
    (check_compression_header (demo_lib 0 0 []))
    (update_compression_header (demo_lib 0 0 []))
    (malloc_ok (demo_lib 0 0 []))
    (alloc_ok (demo_lib 0 0 []))
    stored_zlib.

(* ================================================================== *)
(** * Measures on runs and traces *)

(** The bytes that a run of the decompression loop stores: the output of
    the blocks it decodes, one after the other, until the room is used
    up. *)
Inductive blocks_yield (zl : zlib) : bytes -> Z -> Z -> bytes -> Prop :=
| blocks_yield_full : forall inp ain,
    blocks_yield zl inp ain 0 []
| blocks_yield_block : forall inp ain aout rest,
    0 < ain -> 0 < aout ->
    inf_rc (zl_inflate zl (firstn (Z.to_nat ain) inp) aout) = Z_STREAM_END ->
    blocks_yield zl
      (buf_at inp (inf_consumed (zl_inflate zl (firstn (Z.to_nat ain) inp) aout)))
      (ain - inf_consumed (zl_inflate zl (firstn (Z.to_nat ain) inp) aout))
      (aout - blen (inf_produced (zl_inflate zl (firstn (Z.to_nat ain) inp) aout)))
      rest ->
    blocks_yield zl inp ain aout
      (inf_produced (zl_inflate zl (firstn (Z.to_nat ain) inp) aout) ++ rest).

(** Blocks that [bfd_malloc] handed out in a trace and that were not given
    to [free] in it. *)
Fixpoint malloc_balance (lib : libbfd) (tr : list event) : Z :=
  match tr with
  | [] => 0
  | EvMalloc n :: t =>
      (if malloc_ok lib n then 1 else 0) + malloc_balance lib t
  | EvFree :: t => malloc_balance lib t - 1
  | _ :: t => malloc_balance lib t
  end.

(** Blocks that [bfd_alloc] handed out in a trace and that were not given
    back with [bfd_release] in it. *)
Fixpoint alloc_balance (lib : libbfd) (tr : list event) : Z :=
  match tr with
  | [] => 0
  | EvAlloc n :: t =>
      (if alloc_ok lib n then 1 else 0) + alloc_balance lib t
  | EvRelease :: t => alloc_balance lib t - 1
  | _ :: t => alloc_balance lib t
  end.

(** Calls of [free] in a trace. *)
Fixpoint free_count (tr : list event) : Z :=
  match tr with
  | [] => 0
  | EvFree :: t => 1 + free_count t
  | _ :: t => free_count t
  end.

(** Reads of the backing store in a trace. *)
Fixpoint read_count (tr : list event) : Z :=
  match tr with
  | [] => 0
  | EvRead _ _ :: t => 1 + read_count t
  | _ :: t => read_count t
  end.

Definition is_DONE (c : compress_status_t) : bool :=
  match c with COMPRESS_SECTION_DONE => true | _ => false end.

(* ================================================================== *)
(** * Properties of the stream decompressor *)

Lemma blen_nonneg (b : bytes) : 0 <= blen b.
Proof. unfold blen. lia. Qed.

Lemma blen_firstn_le (n : Z) (b : bytes) :
  0 <= n -> blen (firstn (Z.to_nat n) b) <= n.
Proof.
  intros Hn. unfold blen. rewrite length_firstn. lia.
Qed.

Lemma to_uInt_nonneg (x : Z) : 0 <= to_uInt x.
Proof. unfold to_uInt. apply Z.mod_pos_bound. lia. Qed.

Section Decompressor.

Variable zl : zlib.
Hypothesis contract : inflate_contract zl.

(** With a stream that could not be set up the loop ends at once with the
    code of [inflateInit]. *)
Lemma inflate_loop_bad_rc (usz : Z) (fuel : nat) (strm : z_stream)
    (out : bytes) (rc : Z) :
  rc <> Z_OK ->
  inflate_loop zl usz fuel strm out rc = Some (strm, out, rc).
Proof.
  intros Hrc. apply Z.eqb_neq in Hrc.
  destruct fuel; simpl; rewrite Hrc; simpl;
    destruct ((0 <? avail_in strm) && (0 <? avail_out strm)); reflexivity.
Qed.

(** The loop comes to an end within [avail_in + 1] iterations, and it ends
    with [Z_OK] and no room left exactly when the blocks fill the
    output. *)
Lemma inflate_loop_spec (usz : Z) :
  zl_inflateInit zl = Z_OK ->
  forall (fuel : nat) (strm : z_stream) (out : bytes),
    0 <= avail_in strm -> 0 <= avail_out strm ->
    (Z.to_nat (avail_in strm) < fuel)%nat ->
    exists strm' out' rc',
      inflate_loop zl usz fuel strm out Z_OK = Some (strm', out', rc')
      /\ ((rc' =? Z_OK) && (avail_out strm' =? 0) = true
          <-> blocks_fill zl (next_in strm) (avail_in strm) (avail_out strm)).
Proof.
  intros Hinit.
  induction fuel as [|fuel IH]; intros strm out Hin Hout Hfuel; [lia|].
  cbn [inflate_loop].
  destruct ((0 <? avail_in strm) && (0 <? avail_out strm)) eqn:Hcond.
  - apply andb_true_iff in Hcond. destruct Hcond as [Hi Ho].
    apply Z.ltb_lt in Hi, Ho.
    change (negb (Z_OK =? Z_OK)) with false. cbv iota.
    set (r := zl_inflate zl (firstn (Z.to_nat (avail_in strm)) (next_in strm))
                         (avail_out strm)).
    destruct (inf_rc r =? Z_STREAM_END) eqn:Hend; cbn [negb].
    + apply Z.eqb_eq in Hend.
      assert (Hc : 0 < inf_consumed r) by (apply (ic_progress zl contract); exact Hend).
      assert (Hc' : inf_consumed r <= avail_in strm).
      { pose proof (ic_consumed zl contract
                      (firstn (Z.to_nat (avail_in strm)) (next_in strm))
                      (avail_out strm)) as Hle.
        pose proof (blen_firstn_le (avail_in strm) (next_in strm) Hin).
        fold r in Hle. lia. }
      assert (Hp : blen (inf_produced r) <= avail_out strm)
        by (apply (ic_produced zl contract); lia).
      unfold inflateReset. rewrite Hinit. change (Z_OK =? Z_OK) with true.
      cbv iota.
      edestruct (IH {| next_in := buf_at (next_in strm) (inf_consumed r);
                       avail_in := avail_in strm - inf_consumed r;
                       avail_out := avail_out strm - blen (inf_produced r) |}
                    (buf_write out (usz - avail_out strm) (inf_produced r)
                               (blen (inf_produced r))))
        as (strm' & out' & rc' & Hrun & Hiff); cbn [avail_in avail_out next_in];
        try lia.
      exists strm', out', rc'. split; [exact Hrun|].
      cbn [avail_in avail_out next_in] in Hiff. rewrite Hiff. split.
      * intros Hfill. apply blocks_fill_block; assumption.
      * intros Hfill. inversion Hfill; subst; [lia | assumption].
    + apply Z.eqb_neq in Hend.
      eexists _, _, _. split; [reflexivity|]. split.
      * intros Hok. apply andb_true_iff in Hok. destruct Hok as [Hok _].
        apply Z.eqb_eq in Hok.
        exfalso. apply (ic_finish zl contract _ _ Hok).
      * intros Hfill. exfalso. inversion Hfill; subst; [lia|].
        apply Hend. assumption.
  - exists strm, out, Z_OK. split; [reflexivity|].
    change (Z_OK =? Z_OK) with true. cbn [andb].
    apply andb_false_iff in Hcond. split.
    + intros H0. apply Z.eqb_eq in H0. rewrite H0. constructor.
    + intros Hfill. inversion Hfill; subst.
      * reflexivity.
      * exfalso. destruct Hcond as [Hc|Hc]; apply Z.ltb_ge in Hc; lia.
Qed.

(** Blocks that take up the whole input and fill the output also fill it
    in the sense of the loop. *)
Lemma decodes_whole_input_fills (inp : bytes) (ain aout : Z) :
  decodes_whole_input zl inp ain aout -> 0 <= aout ->
  blocks_fill zl inp ain aout.
Proof.
  induction 1 as [inp | inp ain aout Hin Hend _ IH]; intros Hout.
  - constructor.
  - destruct (Z.eq_dec aout 0) as [->|Hne]; [constructor|].
    apply blocks_fill_block; try assumption; try lia.
    apply IH.
    pose proof (ic_produced zl contract (firstn (Z.to_nat ain) inp) aout).
    lia.
Qed.

End Decompressor.

Lemma stored_zlib_contract : inflate_contract stored_zlib.
Proof.
  constructor; cbn [stored_zlib zl_inflate]; intros w room; unfold stored_inflate.
  - destruct w as [|n rest]; cbn [inf_consumed].
    + unfold blen; simpl; lia.
    + destruct ((blen rest <? byte_val n) || (room <? byte_val n)) eqn:E;
        cbn [inf_consumed]; unfold blen in *; cbn [length].
      * lia.
      * apply orb_false_iff in E. destruct E as [E _]. apply Z.ltb_ge in E.
        unfold byte_val in *. lia.
  - intros Hroom. destruct w as [|n rest]; cbn [inf_produced].
    + unfold blen; simpl; lia.
    + destruct ((blen rest <? byte_val n) || (room <? byte_val n)) eqn:E;
        cbn [inf_produced].
      * unfold blen; simpl; lia.
      * apply orb_false_iff in E. destruct E as [_ E]. apply Z.ltb_ge in E.
        unfold blen. rewrite length_firstn. unfold byte_val in *. lia.
  - destruct w as [|n rest]; cbn [inf_rc inf_consumed].
    + intros H; discriminate H.
    + destruct ((blen rest <? byte_val n) || (room <? byte_val n));
        cbn [inf_rc inf_consumed].
      * intros H; discriminate H.
      * intros _. unfold byte_val. lia.
  - destruct w as [|n rest]; cbn [inf_rc].
    + intros H; discriminate H.
    + destruct ((blen rest <? byte_val n) || (room <? byte_val n));
        cbn [inf_rc]; intros H; discriminate H.
Qed.

(** C4, as amended.  [decompress_contents] always returns, and it returns
    true exactly when [inflateInit] succeeded and the blocks decoded one
    after the other, each up to its own end of stream, fill the output
    exactly; the sizes are the 32-bit counts that zlib is given.  Input left
    over once the output is full is not examined.  Taking up every input
    byte with such blocks is enough for success, but it is not required. *)
Theorem decompress_contents_succeeds_iff (zl : zlib)
    (contract : inflate_contract zl)
    (compressed_buffer : bytes) (compressed_size : Z)
    (uncompressed_buffer : bytes) (uncompressed_size : Z) :
  exists b out,
    decompress_contents zl compressed_buffer compressed_size
                        uncompressed_buffer uncompressed_size = Some (b, out)
    /\ (b = true <->
        zl_inflateInit zl = Z_OK
        /\ blocks_fill zl compressed_buffer (to_uInt compressed_size)
                       (to_uInt uncompressed_size))
    /\ (zl_inflateInit zl = Z_OK ->
        decodes_whole_input zl compressed_buffer (to_uInt compressed_size)
                            (to_uInt uncompressed_size) ->
        b = true).
Proof.
  assert (Hmain : exists b out,
    decompress_contents zl compressed_buffer compressed_size
                        uncompressed_buffer uncompressed_size = Some (b, out)
    /\ (b = true <->
        zl_inflateInit zl = Z_OK
        /\ blocks_fill zl compressed_buffer (to_uInt compressed_size)
                       (to_uInt uncompressed_size))).
  { unfold decompress_contents. cbn [avail_in].
    destruct (Z.eq_dec (zl_inflateInit zl) Z_OK) as [Hinit|Hinit].
    - destruct (inflate_loop_spec zl contract uncompressed_size Hinit
                  (S (Z.to_nat (to_uInt compressed_size)))
                  {| next_in := compressed_buffer;
                     avail_in := to_uInt compressed_size;
                     avail_out := to_uInt uncompressed_size |}
                  uncompressed_buffer)
        as (strm' & out' & rc' & Hrun & Hiff); cbn [avail_in avail_out];
        try apply to_uInt_nonneg; try lia.
      cbn [avail_in avail_out next_in] in Hiff.
      rewrite Hinit. rewrite Hrun.
      eexists _, out'. split; [reflexivity|].
      unfold inflateEnd. rewrite Hinit. change (Z_OK =? Z_OK) with true.
      cbn [andb]. rewrite Hiff. tauto.
    - rewrite (inflate_loop_bad_rc zl uncompressed_size _ _ _ _ Hinit).
      eexists _, _. split; [reflexivity|].
      unfold inflateEnd. apply Z.eqb_neq in Hinit. rewrite Hinit. cbn [andb].
      apply Z.eqb_neq in Hinit. split; [discriminate | tauto]. }
  destruct Hmain as (b & out & Hrun & Hiff).
  exists b, out. split; [exact Hrun|]. split; [exact Hiff|].
  intros Hinit Hall. apply Hiff. split; [exact Hinit|].
  apply decodes_whole_input_fills; [exact contract | exact Hall |].
  apply to_uInt_nonneg.
Qed.

Lemma decompress_contents_succeeds_iff_witness :
  exists b out,
    decompress_contents stored_zlib [x01; x41; x01; x42] 4 [x00; x00] 2
      = Some (b, out)
    /\ (b = true <->
        zl_inflateInit stored_zlib = Z_OK
        /\ blocks_fill stored_zlib [x01; x41; x01; x42] (to_uInt 4) (to_uInt 2))
    /\ (zl_inflateInit stored_zlib = Z_OK ->
        decodes_whole_input stored_zlib [x01; x41; x01; x42] (to_uInt 4)
                            (to_uInt 2) ->
        b = true).
Proof.
  apply (decompress_contents_succeeds_iff stored_zlib stored_zlib_contract).
Defined.

(** C4, as stated, fails: two blocks of one byte each are given with room
    for one byte.  The call succeeds after the first block although half of
    the input has not been consumed. *)
Lemma decompress_contents_leaves_input :
  inflate_contract stored_zlib
  /\ decompress_contents stored_zlib [x01; x41; x01; x42] 4 [x00] 1
     = Some (true, [x41])
  /\ inflate_loop stored_zlib 1 5
       (mk_z_stream [x01; x41; x01; x42] (to_uInt 4) (to_uInt 1)) [x00]
       (zl_inflateInit stored_zlib)
     = Some (mk_z_stream [x01; x42] 2 0, [x41], Z_OK)
  /\ ~ decodes_whole_input stored_zlib [x01; x41; x01; x42] 4 1.
Proof.
  split; [exact stored_zlib_contract|].
  split; [vm_compute; reflexivity|].
  split; [vm_compute; reflexivity|].
  intros H. inversion H; subst.
  match goal with
  | Hrest : decodes_whole_input _ (buf_at _ _) _ _ |- _ =>
      vm_compute in Hrest; inversion Hrest; subst
  end.
  match goal with
  | Hend : inf_rc _ = Z_STREAM_END |- _ =>
      vm_compute in Hend; discriminate Hend
  end.
Qed.

(* ================================================================== *)
(** * Properties of full-content retrieval *)

(** Unfolds the monad so that a call is an expression on the machine. *)
Ltac run_monad :=
  cbv beta iota zeta delta
    [bind ret get_sec modify_sec emit bfd_set_error bfd_get_error
     _bfd_error_handler free bfd_release abort diverge bfd_malloc bfd_alloc
     bfd_get_section_contents bfd_set_section_alignment
     bfd_update_compression_header bfd_get_compression_header_size];
  cbn [m_sec m_error m_trace].

Lemma with_compress_status_restore (s : asection) (c : compress_status_t) :
  with_compress_status (compress_status s) (with_compress_status c s) = s.
Proof. destruct s; reflexivity. Qed.




(** C8, as amended.  With no buffer from the caller and the section in
    state [COMPRESS_SECTION_NONE], a size larger than the non-zero file
    size makes the call fail with [bfd_error_file_truncated] before any
    allocation, for a section that is not linker created and has contents,
    in a BFD whose flavour is not MMO.  The size is the one the function
    works with: [rawsize] for a BFD that is not open for writing and a
    section that records one, [size] otherwise. *)
Theorem full_contents_file_truncated (lib : libbfd) (abfd : bfd) (m : machine) :
  compress_status (m_sec m) = COMPRESS_SECTION_NONE ->
  0 < bfd_get_file_size abfd ->
  bfd_get_file_size abfd < full_contents_size abfd (m_sec m) ->
  Z.land (bfd_section_flags (m_sec m)) SEC_LINKER_CREATED = 0 ->
  Z.land (bfd_section_flags (m_sec m)) SEC_HAS_CONTENTS <> 0 ->
  bfd_get_flavour abfd <> bfd_target_mmo_flavour ->
  bfd_get_full_section_contents lib abfd None m
  = Returned (false, None)
      {| m_sec := m_sec m;
         m_error := bfd_error_file_truncated;
         m_trace := m_trace m ++ [EvMessage] |}.
Proof.
  intros Hst Hfs Hlt Hlc Hhc Hfl.
  unfold bfd_get_full_section_contents. run_monad.
  assert (Hsz : (full_contents_size abfd (m_sec m) =? 0) = false)
    by (apply Z.eqb_neq; lia).
  rewrite Hsz, Hst.
  assert (Hguard : size_exceeds_file abfd (m_sec m)
                     (full_contents_size abfd (m_sec m)) = true).
  { unfold size_exceeds_file.
    apply Z.ltb_lt in Hfs, Hlt. apply Z.eqb_eq in Hlc. apply Z.eqb_neq in Hhc.
    rewrite Hfs, Hlt, Hlc, Hhc.
    destruct (bfd_get_flavour abfd); try reflexivity. contradiction. }
  rewrite Hguard. reflexivity.
Qed.

Lemma full_contents_file_truncated_witness :
  let abfd := mk_bfd read_direction bfd_target_elf_flavour 4 in
  let m := start (demo_section ".data" SEC_HAS_CONTENTS 8
                               COMPRESS_SECTION_NONE) in
  bfd_get_full_section_contents (demo_lib 0 0 [x41; x42; x43; x44]) abfd None m
  = Returned (false, None)
      {| m_sec := m_sec m;
         m_error := bfd_error_file_truncated;
         m_trace := m_trace m ++ [EvMessage] |}.
Proof.
  intros abfd m.
  apply (full_contents_file_truncated (demo_lib 0 0 [x41; x42; x43; x44])
           abfd m).
  - reflexivity.
  - reflexivity.
  - reflexivity.
  - reflexivity.
  - vm_compute. discriminate.
  - discriminate.
Defined.

(** C8, as stated, fails, in two ways.  An MMO file of four bytes with a
    section of eight bytes that has contents and is not linker created: the
    call allocates eight bytes, reads and succeeds.  And an ELF file of
    four bytes with a section of size one hundred that records a raw size
    of two: the call allocates two bytes, reads and succeeds.  No
    truncation is reported in either. *)
Lemma full_contents_not_truncated :
  let image := [x41; x42; x43; x44] in
  let mmo := mk_bfd read_direction bfd_target_mmo_flavour 4 in
  let sec := demo_section ".data" SEC_HAS_CONTENTS 8 COMPRESS_SECTION_NONE in
  let elf := mk_bfd read_direction bfd_target_elf_flavour 4 in
  let sec2 := mk_asection ".data" SEC_HAS_CONTENTS 100 2 0 0 None
                COMPRESS_SECTION_NONE in
  (compress_status sec = COMPRESS_SECTION_NONE
   /\ 0 < bfd_get_file_size mmo
   /\ bfd_get_file_size mmo < size sec
   /\ bfd_get_file_size mmo < full_contents_size mmo sec
   /\ Z.land (bfd_section_flags sec) SEC_LINKER_CREATED = 0
   /\ Z.land (bfd_section_flags sec) SEC_HAS_CONTENTS <> 0
   /\ bfd_get_full_section_contents (demo_lib 0 0 image) mmo None (start sec)
      = Returned (true, Some [x41; x42; x43; x44; x00; x00; x00; x00])
          {| m_sec := sec;
             m_error := bfd_error_no_error;
             m_trace := [EvMalloc 8; EvRead 0 8] |})
  /\ (compress_status sec2 = COMPRESS_SECTION_NONE
      /\ 0 < bfd_get_file_size elf
      /\ bfd_get_file_size elf < size sec2
      /\ Z.land (bfd_section_flags sec2) SEC_LINKER_CREATED = 0
      /\ Z.land (bfd_section_flags sec2) SEC_HAS_CONTENTS <> 0
      /\ bfd_get_flavour elf <> bfd_target_mmo_flavour
      /\ bfd_get_full_section_contents (demo_lib 0 0 image) elf None
           (start sec2)
         = Returned (true, Some [x41; x42])
             {| m_sec := sec2;
                m_error := bfd_error_no_error;
                m_trace := [EvMalloc 2; EvRead 0 2] |}).
Proof.
  intros image mmo sec elf sec2. split.
  - repeat split; try reflexivity.
    + vm_compute. discriminate.
  - split; [reflexivity|]. split; [reflexivity|]. split; [reflexivity|].
    split; [reflexivity|]. split; [vm_compute; discriminate|].
    split; [discriminate|]. vm_compute. reflexivity.
Qed.

(** C10.  In a BFD of the MMO flavour the size test of the
    [COMPRESS_SECTION_NONE] case is false whatever the sizes and flags are,
    and the call goes on to [bfd_malloc] and to the read: it fails only when
    the memory is not there or the read fails. *)
Theorem full_contents_mmo_reads (lib : libbfd) (abfd : bfd) (m : machine) :
  bfd_get_flavour abfd = bfd_target_mmo_flavour ->
  compress_status (m_sec m) = COMPRESS_SECTION_NONE ->
  full_contents_size abfd (m_sec m) <> 0 ->
  let sz := full_contents_size abfd (m_sec m) in
  size_exceeds_file abfd (m_sec m) sz = false
  /\ bfd_get_full_section_contents lib abfd None m
     = if malloc_ok lib sz then
         match get_section_contents lib abfd (m_sec m) 0 sz with
         | IoOk data =>
             Returned (true, Some (buf_write (fresh_buffer sz) 0 data sz))
               {| m_sec := m_sec m;
                  m_error := m_error m;
                  m_trace := (m_trace m ++ [EvMalloc sz]) ++ [EvRead 0 sz] |}
         | IoFail e =>
             Returned (false, None)
               {| m_sec := m_sec m;
                  m_error := e;
                  m_trace := ((m_trace m ++ [EvMalloc sz]) ++ [EvRead 0 sz])
                             ++ [EvFree] |}
         end
       else
         Returned (false, None)
           {| m_sec := m_sec m;
              m_error := bfd_error_no_memory;
              m_trace := (m_trace m ++ [EvMalloc sz]) ++ [EvMessage] |}.
Proof.
  intros Hfl Hst Hsz sz.
  assert (Hguard : size_exceeds_file abfd (m_sec m) sz = false).
  { unfold size_exceeds_file. rewrite Hfl. cbn [is_mmo_flavour negb].
    apply andb_false_r. }
  split; [exact Hguard|].
  unfold bfd_get_full_section_contents. run_monad. fold sz.
  apply Z.eqb_neq in Hsz. fold sz in Hsz. rewrite Hsz, Hst, Hguard.
  destruct (malloc_ok lib sz); run_monad; [|reflexivity].
  destruct (get_section_contents lib abfd (m_sec m) 0 sz); reflexivity.
Qed.

Lemma full_contents_mmo_reads_witness :
  let abfd := mk_bfd read_direction bfd_target_mmo_flavour 4 in
  let m := start (demo_section ".text" SEC_HAS_CONTENTS 6
                               COMPRESS_SECTION_NONE) in
  size_exceeds_file abfd (m_sec m) 6 = false
  /\ bfd_get_full_section_contents (demo_lib 0 0 [x41; x42; x43; x44]) abfd
       None m
     = Returned (true, Some [x41; x42; x43; x44; x00; x00])
         {| m_sec := m_sec m;
            m_error := bfd_error_no_error;
            m_trace := [EvMalloc 6; EvRead 0 6] |}.
Proof.
  intros abfd m.
  apply (full_contents_mmo_reads (demo_lib 0 0 [x41; x42; x43; x44]) abfd m).
  - reflexivity.
  - reflexivity.
  - vm_compute. discriminate.
Defined.

(* ================================================================== *)
(** * Properties of compression detection *)

(** Case analysis on an innermost scrutinee of the goal. *)
Ltac case_split :=
  match goal with
  | |- context [match ?x with _ => _ end] =>
      lazymatch x with
      | context [match _ with _ => _ end] => fail
      | _ => destruct x eqn:?
      end
  end.

(** What a call of the detection leaves behind: the section as it was, and
    one more read in the trace. *)
Lemma detection_frame (lib : libbfd) (abfd : bfd) (m : machine) :
  match bfd_is_section_compressed_with_header lib abfd m with
  | Returned d m' =>
      m_sec m' = m_sec m
      /\ bfd_get_compression_header_size lib abfd (Some (m_sec m))
         <= MAX_COMPRESSION_HEADER_SIZE
      /\ exists count, m_trace m' = m_trace m ++ [EvRead 0 count]
  | Aborted =>
      MAX_COMPRESSION_HEADER_SIZE
      < bfd_get_compression_header_size lib abfd (Some (m_sec m))
  | Diverged => False
  end.
Proof.
  unfold bfd_is_section_compressed_with_header. run_monad.
  destruct (MAX_COMPRESSION_HEADER_SIZE
            <? get_compression_header_size lib abfd (Some (m_sec m))) eqn:Hmax.
  - apply Z.ltb_lt in Hmax. exact Hmax.
  - apply Z.ltb_ge in Hmax.
    repeat (case_split; run_monad);
      rewrite with_compress_status_restore;
      (split; [reflexivity | split; [exact Hmax | eexists; reflexivity]]).
Qed.

(** C9.  When [bfd_is_section_compressed_with_header] returns, the
    [compress_status] of the section is what it was before the call.  This
    holds on every path; when the read of the header fails the function
    still returns, with the status restored and the answer "not
    compressed".  The only calls that do not return are those stopped by
    [abort] for a header size above [MAX_COMPRESSION_HEADER_SIZE]. *)
Theorem detection_restores_compress_status (lib : libbfd) (abfd : bfd)
    (m : machine) :
  let chs := bfd_get_compression_header_size lib abfd (Some (m_sec m)) in
  match bfd_is_section_compressed_with_header lib abfd m with
  | Returned d m' =>
      compress_status (m_sec m') = compress_status (m_sec m)
      /\ chs <= MAX_COMPRESSION_HEADER_SIZE
      /\ match get_section_contents lib abfd
                 (with_compress_status COMPRESS_SECTION_NONE (m_sec m)) 0
                 (to_size_type (if chs =? 0 then 12 else chs)) with
         | IoFail e => det_compressed d = false /\ m_error m' = e
         | IoOk _ => m_error m' = m_error m
         end
  | Aborted => MAX_COMPRESSION_HEADER_SIZE < chs
  | Diverged => False
  end.
Proof.
  intros chs.
  pose proof (detection_frame lib abfd m) as Hframe.
  destruct (bfd_is_section_compressed_with_header lib abfd m)
    as [d m'| |] eqn:Hrun; try exact Hframe.
  destruct Hframe as (Hsec & Hmax & _).
  split; [rewrite Hsec; reflexivity|]. split; [exact Hmax|].
  revert Hrun. unfold bfd_is_section_compressed_with_header. run_monad.
  apply Z.ltb_ge in Hmax. unfold bfd_get_compression_header_size in Hmax.
  rewrite Hmax. subst chs. unfold bfd_get_compression_header_size.
  destruct (get_section_contents lib abfd
              (with_compress_status COMPRESS_SECTION_NONE (m_sec m)) 0 _)
    as [data|e']; run_monad.
  - repeat (case_split; run_monad); intros Hrun; inversion Hrun; reflexivity.
  - intros Hrun. inversion Hrun. split; reflexivity.
Qed.

(** The header array after a read of twelve bytes that returned [data]. *)
Lemma header_after_read (data : bytes) :
  buf_write (fresh_buffer MAX_COMPRESSION_HEADER_SIZE) 0 data 12
  = firstn 12 data
    ++ skipn (length (firstn 12 data)) (fresh_buffer MAX_COMPRESSION_HEADER_SIZE).
Proof. reflexivity. Qed.

(** C3, as amended.  In a format without embedded header, a section whose
    first twelve bytes are "ZLIB" and the big-endian number 50 is reported
    as compressed, with uncompressed size 50, alignment power 0 and the
    header size 0 that marks the legacy header (the twelve bytes of that
    header are not reported); [bfd_is_section_compressed] returns true. *)
Theorem detection_legacy_positive (lib : libbfd) (abfd : bfd) (m : machine)
    (data : bytes) :
  bfd_get_compression_header_size lib abfd (Some (m_sec m)) = 0 ->
  get_section_contents lib abfd
    (with_compress_status COMPRESS_SECTION_NONE (m_sec m)) 0 12 = IoOk data ->
  firstn 12 data
  = ZLIB_magic ++ [x00; x00; x00; x00; x00; x00; x00; x32] ->
  let m' := {| m_sec := m_sec m; m_error := m_error m;
               m_trace := m_trace m ++ [EvRead 0 12] |} in
  bfd_is_section_compressed_with_header lib abfd m
  = Returned (mk_detection true 0 50 0) m'
  /\ bfd_is_section_compressed lib abfd m = Returned true m'.
Proof.
  intros Hhs Hread Hdata m'.
  assert (Hdet : bfd_is_section_compressed_with_header lib abfd m
                 = Returned (mk_detection true 0 50 0) m').
  { unfold bfd_is_section_compressed_with_header. run_monad.
    unfold bfd_get_compression_header_size in Hhs. rewrite Hhs.
    change (MAX_COMPRESSION_HEADER_SIZE <? 0) with false.
    change (0 =? 0) with true. cbv iota.
    change (to_size_type 12) with 12. cbv beta.
    rewrite Hread. run_monad.
    rewrite header_after_read, Hdata.
    change (startswith _ ZLIB_magic) with true. cbv iota.
    cbn [negb].
    change (ISPRINT _) with false. rewrite andb_false_r.
    cbn [m_sec m_error m_trace]. rewrite with_compress_status_restore.
    reflexivity. }
  split; [exact Hdet|].
  unfold bfd_is_section_compressed. unfold bind at 1. rewrite Hdet.
  reflexivity.
Qed.

Lemma detection_legacy_positive_witness :
  let image := [x5a; x4c; x49; x42; x00; x00; x00; x00; x00; x00; x00; x32;
                x01; x41] in
  let abfd := mk_bfd read_direction bfd_target_elf_flavour 14 in
  let m := start (demo_section ".zdebug_info" SEC_HAS_CONTENTS 14
                               COMPRESS_SECTION_NONE) in
  let m' := {| m_sec := m_sec m; m_error := m_error m;
               m_trace := m_trace m ++ [EvRead 0 12] |} in
  bfd_is_section_compressed_with_header (demo_lib 0 0 image) abfd m
  = Returned (mk_detection true 0 50 0) m'
  /\ bfd_is_section_compressed (demo_lib 0 0 image) abfd m = Returned true m'.
Proof.
  intros image abfd m.
  apply (detection_legacy_positive (demo_lib 0 0 image) abfd m
           (firstn 12 image)); reflexivity.
Defined.

(** C3, as stated, fails: on the twelve bytes "ZLIB" and big-endian 50 the
    header size that the detection reports is 0, not 12. *)
Lemma detection_legacy_header_size_is_zero :
  let image := [x5a; x4c; x49; x42; x00; x00; x00; x00; x00; x00; x00; x32] in
  let abfd := mk_bfd read_direction bfd_target_elf_flavour 12 in
  let sec := demo_section ".zdebug_info" SEC_HAS_CONTENTS 12
                          COMPRESS_SECTION_NONE in
  let d := mk_detection true 0 50 0 in
  bfd_get_compression_header_size (demo_lib 0 0 image) abfd (Some sec) = 0
  /\ get_section_contents (demo_lib 0 0 image) abfd sec 0 12 = IoOk image
  /\ bfd_is_section_compressed_with_header (demo_lib 0 0 image) abfd (start sec)
     = Returned d (mk_machine sec bfd_error_no_error [EvRead 0 12])
  /\ det_header_size d <> 12.
Proof.
  intros image abfd sec d.
  split; [reflexivity|].
  split; [vm_compute; reflexivity|].
  split; [vm_compute; reflexivity|].
  discriminate.
Qed.

(** C6.  For a section named ".debug_str" whose header starts with "ZLIB"
    and has a printable byte at offset 4, the detection reports "not
    compressed" when the format has no embedded header; with an embedded
    header (a header size that is not zero) the same name and bytes are
    reported as compressed, the test is not made there. *)
Theorem detection_debug_str_guard (lib : libbfd) (abfd : bfd) (m : machine)
    (data : bytes) :
  let chs := bfd_get_compression_header_size lib abfd (Some (m_sec m)) in
  name (m_sec m) = ".debug_str"%string ->
  chs <= MAX_COMPRESSION_HEADER_SIZE ->
  get_section_contents lib abfd
    (with_compress_status COMPRESS_SECTION_NONE (m_sec m)) 0
    (to_size_type (if chs =? 0 then 12 else chs)) = IoOk data ->
  (5 <= length data)%nat ->
  firstn 4 data = ZLIB_magic ->
  ISPRINT (buf_get data 4) = true ->
  exists d m',
    bfd_is_section_compressed_with_header lib abfd m = Returned d m'
    /\ m_sec m' = m_sec m
    /\ det_compressed d = negb (chs =? 0)
    /\ bfd_is_section_compressed lib abfd m
       = Returned (negb (chs =? 0) && (0 <=? det_header_size d)
                   && (0 <? det_uncompressed_size d)) m'.
Proof.
  intros chs Hname Hmax Hread Hlen Hmagic Hprint.
  assert (Hdet : exists d m',
    bfd_is_section_compressed_with_header lib abfd m = Returned d m'
    /\ m_sec m' = m_sec m
    /\ det_compressed d = negb (chs =? 0)).
  { unfold bfd_is_section_compressed_with_header. run_monad.
    subst chs. unfold bfd_get_compression_header_size in *.
    apply Z.ltb_ge in Hmax. rewrite Hmax.
    rewrite Hread. run_monad.
    destruct (get_compression_header_size lib abfd (Some (m_sec m)) =? 0)
      eqn:Hzero; cbn [negb].
    - change (to_size_type 12) with 12.
      destruct data as [|b0 [|b1 [|b2 [|b3 [|b data]]]]];
        try (cbn in Hlen; lia).
      injection Hmagic as -> -> -> ->.
      rewrite header_after_read.
      change (startswith _ ZLIB_magic) with true. cbv iota.
      unfold is_debug_str. rewrite with_compress_status_restore || idtac.
      cbn [name with_compress_status]. rewrite Hname.
      change (String.eqb ".debug_str" ".debug_str") with true.
      cbn [andb].
      change (buf_get (firstn 12 (x5a :: x4c :: x49 :: x42 :: b :: data) ++ _) 4)
        with b.
      change (buf_get (x5a :: x4c :: x49 :: x42 :: b :: data) 4) with b in Hprint.
      rewrite Hprint.
      eexists _, _. split; [reflexivity|].
      cbn [m_sec]. rewrite with_compress_status_restore. split; reflexivity.
    - repeat (case_split; run_monad);
        (eexists _, _; split; [reflexivity|]; cbn [m_sec];
         rewrite with_compress_status_restore; split; reflexivity). }
  destruct Hdet as (d & m' & Hrun & Hsec & Hc).
  exists d, m'. repeat split; try assumption.
  unfold bfd_is_section_compressed. unfold bind at 1. rewrite Hrun.
  unfold ret. rewrite Hc. reflexivity.
Qed.

Lemma detection_debug_str_guard_witness :
  let image := [x5a; x4c; x49; x42; x78; x78; x78; x78; x00; x41; x42; x00;
                x43; x44; x45; x00; x46; x47; x48; x00; x49; x4a; x4b; x00] in
  let abfd := mk_bfd read_direction bfd_target_elf_flavour 24 in
  let m := start (demo_section ".debug_str" SEC_HAS_CONTENTS 24
                               COMPRESS_SECTION_NONE) in
  (exists d m',
     bfd_is_section_compressed_with_header (demo_lib 0 0 image) abfd m
     = Returned d m'
     /\ m_sec m' = m_sec m
     /\ det_compressed d = false
     /\ bfd_is_section_compressed (demo_lib 0 0 image) abfd m
        = Returned (false && (0 <=? det_header_size d)
                    && (0 <? det_uncompressed_size d)) m')
  /\ (exists d m',
        bfd_is_section_compressed_with_header (demo_lib 24 0 image) abfd m
        = Returned d m'
        /\ m_sec m' = m_sec m
        /\ det_compressed d = true
        /\ bfd_is_section_compressed (demo_lib 24 0 image) abfd m
           = Returned (true && (0 <=? det_header_size d)
                       && (0 <? det_uncompressed_size d)) m').
Proof.
  intros image abfd m. split.
  - apply (detection_debug_str_guard (demo_lib 0 0 image) abfd m
             (firstn 12 image)).
    + reflexivity.
    + vm_compute. discriminate.
    + reflexivity.
    + vm_compute. lia.
    + reflexivity.
    + reflexivity.
  - apply (detection_debug_str_guard (demo_lib 24 0 image) abfd m image).
    + reflexivity.
    + vm_compute. discriminate.
    + reflexivity.
    + vm_compute. lia.
    + reflexivity.
    + reflexivity.
Defined.

(* ================================================================== *)
(** * Properties of the commit, bfd_compress_section_contents *)

(** C1, as amended.  When the section is not found compressed, the
    allocation and [compress] succeed and the header plus the compressed
    bytes are not fewer than the raw bytes, the commit releases the new
    buffer, stores the raw buffer as the contents of the section, sets the
    state to [COMPRESS_SECTION_NONE], leaves the size as it is and returns
    the raw size. *)
Theorem commit_no_gain_keeps_raw (lib : libbfd) (abfd : bfd)
    (uncompressed_buffer : bytes) (uncompressed_size : Z)
    (m m1 : machine) (d : detection) (out : bytes) :
  let hs0 := bfd_get_compression_header_size lib abfd None in
  let header_size := if hs0 =? 0 then 12 else hs0 in
  let cap := to_size_type (zl_compressBound (zlib_of lib) uncompressed_size
                           + header_size) in
  bfd_is_section_compressed_with_header lib abfd m = Returned d m1 ->
  det_compressed d = false ->
  alloc_ok lib cap = true ->
  zl_compress (zlib_of lib)
    (firstn (Z.to_nat uncompressed_size) uncompressed_buffer) cap
  = (Z_OK, out) ->
  uncompressed_size <= to_size_type (blen out + header_size) ->
  bfd_compress_section_contents lib abfd uncompressed_buffer
    uncompressed_size m
  = Returned uncompressed_size
      {| m_sec := with_compress_status COMPRESS_SECTION_NONE
                    (with_contents (Some uncompressed_buffer) (m_sec m));
         m_error := m_error m1;
         m_trace := (m_trace m1 ++ [EvAlloc cap]) ++ [EvRelease] |}.
Proof.
  intros hs0 header_size cap Hdet Hc Halloc Hcompress Hgain.
  pose proof (detection_frame lib abfd m) as Hframe.
  rewrite Hdet in Hframe. destruct Hframe as (Hsec & _ & _).
  unfold bfd_compress_section_contents. unfold bind at 1.
  rewrite Hdet, Hc. cbn [andb]. cbv zeta.
  fold hs0. fold header_size. fold cap.
  run_monad. rewrite Halloc. run_monad. rewrite Hcompress.
  change (negb (Z_OK =? Z_OK)) with false. cbv iota.
  apply Z.ltb_ge in Hgain. rewrite Hgain. run_monad.
  rewrite Hsec. reflexivity.
Qed.

Lemma commit_no_gain_keeps_raw_witness :
  let raw := [x10; x32; x54; x76; x98; xba; xdc; xfe;
              x01; x23; x45; x67; x89; xab; xcd; xef] in
  let lib := demo_lib 0 0 raw in
  let abfd := mk_bfd write_direction bfd_target_elf_flavour 0 in
  let m := start (demo_section ".debug_info" SEC_HAS_CONTENTS 16
                               COMPRESS_SECTION_NONE) in
  bfd_compress_section_contents lib abfd raw 16 m
  = Returned 16
      {| m_sec := with_compress_status COMPRESS_SECTION_NONE
                    (with_contents (Some raw) (m_sec m));
         m_error := bfd_error_no_error;
         m_trace := [EvRead 0 12; EvAlloc 29; EvRelease] |}.
Proof.
  intros raw lib abfd m.
  apply (commit_no_gain_keeps_raw lib abfd raw 16 m
           {| m_sec := m_sec m; m_error := bfd_error_no_error;
              m_trace := [EvRead 0 12] |}
           (mk_detection false 0 16 0) (x10 :: raw)).
  - reflexivity.
  - reflexivity.
  - reflexivity.
  - reflexivity.
  - vm_compute. discriminate.
Defined.

(** C1, as stated, fails: sixteen bytes for which the codec finds no gain
    (header and compressed bytes are 29).  The commit keeps the raw bytes
    and returns 16, but the state it leaves is [COMPRESS_SECTION_NONE], not
    [COMPRESS_SECTION_DONE]. *)
Lemma commit_no_gain_state_is_none :
  let raw := [x10; x32; x54; x76; x98; xba; xdc; xfe;
              x01; x23; x45; x67; x89; xab; xcd; xef] in
  let lib := demo_lib 0 0 raw in
  let abfd := mk_bfd write_direction bfd_target_elf_flavour 0 in
  let sec := demo_section ".debug_info" SEC_HAS_CONTENTS 16
                          COMPRESS_SECTION_NONE in
  let m' := {| m_sec := with_compress_status COMPRESS_SECTION_NONE
                          (with_contents (Some raw) sec);
               m_error := bfd_error_no_error;
               m_trace := [EvRead 0 12; EvAlloc 29; EvRelease] |} in
  bfd_is_section_compressed_with_header lib abfd (start sec)
  = Returned (mk_detection false 0 16 0)
      {| m_sec := sec; m_error := bfd_error_no_error;
         m_trace := [EvRead 0 12] |}
  /\ zl_compress (zlib_of lib) raw 29 = (Z_OK, x10 :: raw)
  /\ 16 <= blen (x10 :: raw) + 12
  /\ bfd_compress_section_contents lib abfd raw 16 (start sec)
     = Returned 16 m'
  /\ bfd_compress_section lib abfd (Some raw) (start sec) = Returned true m'
  /\ contents (m_sec m') = Some raw
  /\ compress_status (m_sec m') = COMPRESS_SECTION_NONE
  /\ compress_status (m_sec m') <> COMPRESS_SECTION_DONE.
Proof.
  intros raw lib abfd sec m'.
  split; [vm_compute; reflexivity|].
  split; [vm_compute; reflexivity|].
  split; [vm_compute; discriminate|].
  split; [vm_compute; reflexivity|].
  split; [vm_compute; reflexivity|].
  split; [reflexivity|]. split; [reflexivity|]. discriminate.
Qed.

Lemma int_size_no_wrap (uncompressed_size orig_header_size header_size : Z) :
  0 <= header_size ->
  orig_header_size <= uncompressed_size ->
  uncompressed_size - orig_header_size + header_size < 2 ^ 31 ->
  to_size_type
    (to_int (to_int (to_size_type (uncompressed_size - orig_header_size))
             + header_size))
  = uncompressed_size - orig_header_size + header_size.
Proof.
  intros Hh Ho Hs.
  assert (H1 : to_size_type (uncompressed_size - orig_header_size)
               = uncompressed_size - orig_header_size)
    by (unfold to_size_type; apply Z.mod_small; lia).
  assert (Hint : forall x, 0 <= x < 2 ^ 31 -> to_int x = x).
  { intros x Hx. unfold to_int. rewrite Z.mod_small by lia. lia. }
  rewrite H1, (Hint (uncompressed_size - orig_header_size)) by lia.
  rewrite Hint by lia.
  unfold to_size_type. apply Z.mod_small. lia.
Qed.

(** C5.  When the section is found compressed with a header the library
    knows, and the compressed bytes with the header of the output format
    would be more than the uncompressed size recorded in the header, the
    commit allocates a buffer of that uncompressed size and decompresses
    the bytes after the old header into it; once that has succeeded the
    section has that buffer as contents, the alignment power found in the
    old header, the recorded uncompressed size as size and state
    [COMPRESS_SECTION_DONE], with its other fields as before, and the
    uncompressed size is returned.  The size compared is the one the code
    computes in an [int]; for sizes below 2^31 it is the length of the
    compressed bytes plus the header size. *)
Theorem commit_bloat_decompresses (lib : libbfd) (abfd : bfd)
    (uncompressed_buffer : bytes) (uncompressed_size : Z)
    (m m1 : machine) (d : detection) (out : bytes) :
  let hs0 := bfd_get_compression_header_size lib abfd None in
  let header_size := if hs0 =? 0 then 12 else hs0 in
  let orig_header_size :=
    if det_header_size d =? 0 then 12 else det_header_size d in
  let zlib_size :=
    to_int (to_size_type (uncompressed_size - orig_header_size)) in
  let new_size := to_size_type (to_int (zlib_size + header_size)) in
  let orig_size := det_uncompressed_size d in
  bfd_is_section_compressed_with_header lib abfd m = Returned d m1 ->
  det_compressed d = true ->
  0 <= det_header_size d ->
  orig_size < new_size ->
  alloc_ok lib orig_size = true ->
  decompress_contents (zlib_of lib)
    (buf_at uncompressed_buffer orig_header_size) (to_size_type zlib_size)
    (fresh_buffer orig_size) orig_size = Some (true, out) ->
  (exists m',
     bfd_compress_section_contents lib abfd uncompressed_buffer
       uncompressed_size m = Returned orig_size m'
     /\ contents (m_sec m') = Some out
     /\ alignment_power (m_sec m') = det_align_pow d
     /\ compress_status (m_sec m') = COMPRESS_SECTION_DONE
     /\ size (m_sec m') = orig_size
     /\ name (m_sec m') = name (m_sec m)
     /\ flags (m_sec m') = flags (m_sec m)
     /\ rawsize (m_sec m') = rawsize (m_sec m)
     /\ compressed_size (m_sec m') = compressed_size (m_sec m)
     /\ m_error m' = m_error m1
     /\ m_trace m' = (m_trace m1 ++ [EvAlloc orig_size]) ++ [EvFree])
  /\ (0 <= header_size ->
      orig_header_size <= uncompressed_size ->
      uncompressed_size - orig_header_size + header_size < 2 ^ 31 ->
      new_size = uncompressed_size - orig_header_size + header_size).
Proof.
  intros hs0 header_size orig_header_size zlib_size new_size orig_size
         Hdet Hc Hhs Hbloat Halloc Hdec.
  split; [|apply int_size_no_wrap].
  pose proof (detection_frame lib abfd m) as Hframe.
  rewrite Hdet in Hframe. destruct Hframe as (Hsec & _ & _).
  unfold bfd_compress_section_contents. unfold bind at 1.
  rewrite Hdet, Hc. cbn [andb]. cbv zeta.
  fold hs0. fold header_size. fold orig_header_size. fold zlib_size.
  fold new_size. fold orig_size.
  assert (Hneg : (det_header_size d <? 0) = false) by (apply Z.ltb_ge; lia).
  rewrite Hneg.
  apply Z.ltb_lt in Hbloat. rewrite Hbloat.
  run_monad. rewrite Halloc. run_monad. rewrite Hdec. run_monad.
  rewrite Hsec. eexists. split; [reflexivity|].
  cbn [m_sec m_error m_trace]. destruct (m_sec m).
  repeat split.
Qed.

Lemma commit_bloat_decompresses_witness :
  let raw := [x5a; x4c; x49; x42; x00; x00; x00; x00; x00; x00; x00; x0a;
              x0a; x61; x62; x63; x64; x65; x66; x67; x68; x69; x6a] in
  let lib := demo_lib 0 24 raw in
  let abfd := mk_bfd write_direction bfd_target_elf_flavour 0 in
  let sec := mk_asection ".zdebug_info" SEC_HAS_CONTENTS 23 0 0 3 None
               COMPRESS_SECTION_NONE in
  let m1 := {| m_sec := sec; m_error := bfd_error_no_error;
               m_trace := [EvRead 0 12] |} in
  let raw2 := [x01; x00; x00; x00; x00; x00; x00; x00;
               x00; x00; x00; x00; x00; x00; x00; x0a;
               x00; x00; x00; x00; x00; x00; x00; x04;
               x0a; x61; x62; x63; x64; x65; x66; x67; x68; x69; x6a] in
  let lib2 := demo_lib 24 0 raw2 in
  let sec2 := mk_asection ".debug_info" SEC_HAS_CONTENTS 35 0 0 0 None
                COMPRESS_SECTION_NONE in
  let m2 := {| m_sec := sec2; m_error := bfd_error_no_error;
               m_trace := [EvRead 0 24] |} in
  ((exists m',
      bfd_compress_section_contents lib abfd raw 23 (start sec)
      = Returned 10 m'
      /\ contents (m_sec m')
         = Some [x61; x62; x63; x64; x65; x66; x67; x68; x69; x6a]
      /\ alignment_power (m_sec m') = 0
      /\ compress_status (m_sec m') = COMPRESS_SECTION_DONE
      /\ size (m_sec m') = 10
      /\ name (m_sec m') = name sec
      /\ flags (m_sec m') = flags sec
      /\ rawsize (m_sec m') = rawsize sec
      /\ compressed_size (m_sec m') = compressed_size sec
      /\ m_error m' = m_error m1
      /\ m_trace m' = (m_trace m1 ++ [EvAlloc 10]) ++ [EvFree])
   /\ (0 <= 24 -> 12 <= 23 -> 23 - 12 + 24 < 2 ^ 31 ->
       to_size_type (to_int (to_int (to_size_type (23 - 12)) + 24))
       = 23 - 12 + 24))
  /\ ((exists m',
         bfd_compress_section_contents lib2 abfd raw2 35 (start sec2)
         = Returned 10 m'
         /\ contents (m_sec m')
            = Some [x61; x62; x63; x64; x65; x66; x67; x68; x69; x6a]
         /\ alignment_power (m_sec m') = 4
         /\ compress_status (m_sec m') = COMPRESS_SECTION_DONE
         /\ size (m_sec m') = 10
         /\ name (m_sec m') = name sec2
         /\ flags (m_sec m') = flags sec2
         /\ rawsize (m_sec m') = rawsize sec2
         /\ compressed_size (m_sec m') = compressed_size sec2
         /\ m_error m' = m_error m2
         /\ m_trace m' = (m_trace m2 ++ [EvAlloc 10]) ++ [EvFree])
      /\ (0 <= 12 -> 24 <= 35 -> 35 - 24 + 12 < 2 ^ 31 ->
          to_size_type (to_int (to_int (to_size_type (35 - 24)) + 12))
          = 35 - 24 + 12)).
Proof.
  intros raw lib abfd sec m1 raw2 lib2 sec2 m2. split.
  - apply (commit_bloat_decompresses lib abfd raw 23 (start sec) m1
             (mk_detection true 0 10 0)
             [x61; x62; x63; x64; x65; x66; x67; x68; x69; x6a]).
    + reflexivity.
    + reflexivity.
    + vm_compute. discriminate.
    + reflexivity.
    + reflexivity.
    + reflexivity.
  - apply (commit_bloat_decompresses lib2 abfd raw2 35 (start sec2) m2
             (mk_detection true 24 10 4)
             [x61; x62; x63; x64; x65; x66; x67; x68; x69; x6a]).
    + reflexivity.
    + reflexivity.
    + vm_compute. discriminate.
    + reflexivity.
    + reflexivity.
    + reflexivity.
Defined.

(* ================================================================== *)
(** * The contents buffer and the state Done *)

(** Closes a goal on the section left by one path through a function. *)
Ltac solve_leaves :=
  cbn [leaves m_sec];
  unfold done_has_contents, contents_iff_done in *;
  cbn [contents compress_status with_flags with_size with_rawsize
       with_compressed_size with_alignment_power with_contents
       with_compress_status] in *;
  first [ exact I | tauto | congruence | intros; congruence
        | split; intros; congruence ].

(** Full-content retrieval hands the section back as it found it. *)
Lemma full_contents_frame (lib : libbfd) (abfd : bfd) (ptr : option bytes)
    (m : machine) :
  leaves (fun s => s = m_sec m) (bfd_get_full_section_contents lib abfd ptr m).
Proof.
  destruct m as [[nm fl sz rs cs ap ct st] err tr].
  unfold bfd_get_full_section_contents. run_monad.
  case_split; [reflexivity|].
  cbn [compress_status compressed_size rawsize size contents].
  destruct st; run_monad;
    repeat (case_split; run_monad); cbn [leaves m_sec]; try reflexivity;
    try exact I.
Qed.

Lemma commit_leaves_done_has_contents (lib : libbfd) (abfd : bfd)
    (ub : bytes) (usize : Z) (m : machine) :
  done_has_contents (m_sec m) ->
  leaves done_has_contents (bfd_compress_section_contents lib abfd ub usize m).
Proof.
  intros Hinv.
  pose proof (detection_frame lib abfd m) as Hframe.
  unfold bfd_compress_section_contents. unfold bind at 1.
  destruct (bfd_is_section_compressed_with_header lib abfd m)
    as [d m1| |]; [|exact I|exact I].
  destruct Hframe as (Hsec & _ & _). rewrite <- Hsec in Hinv.
  cbv zeta. run_monad.
  repeat (case_split; run_monad); solve_leaves.
Qed.

Lemma detection_leaves (P : asection -> Prop) (lib : libbfd) (abfd : bfd)
    (m : machine) :
  P (m_sec m) ->
  leaves P (bfd_is_section_compressed_with_header lib abfd m)
  /\ leaves P (bfd_is_section_compressed lib abfd m).
Proof.
  intros HP. pose proof (detection_frame lib abfd m) as Hframe.
  unfold bfd_is_section_compressed. unfold bind.
  destruct (bfd_is_section_compressed_with_header lib abfd m) as [d m'| |];
    cbn [leaves ret]; try tauto.
  destruct Hframe as (-> & _). tauto.
Qed.

Lemma cache_leaves_done_has_contents (new_contents : option bytes)
    (m : machine) :
  new_contents <> None ->
  leaves done_has_contents (bfd_cache_section_contents new_contents m).
Proof.
  intros Hnew. unfold bfd_cache_section_contents. run_monad.
  case_split; run_monad; cbn [leaves m_sec]; unfold done_has_contents;
    intros _; exact Hnew.
Qed.

Lemma decompress_status_leaves (lib : libbfd) (abfd : bfd) (m : machine) :
  (done_has_contents (m_sec m) ->
   leaves done_has_contents (bfd_init_section_decompress_status lib abfd m))
  /\ (contents_iff_done (m_sec m) ->
      leaves contents_iff_done (bfd_init_section_decompress_status lib abfd m)).
Proof.
  destruct m as [[nm fl sz rs cs ap ct st] err tr].
  unfold bfd_init_section_decompress_status. run_monad.
  cbn [rawsize contents compress_status].
  split; intros Hinv;
    (case_split; [exact I|]);
    (destruct ct as [c|]; [rewrite orb_true_r; cbn [orb]; run_monad; exact Hinv|]);
    (destruct st; cbn [is_NULL is_NONE negb orb];
     try (rewrite orb_true_r; run_monad; exact Hinv));
    destruct (negb (rs =? 0)); cbn [orb]; run_monad; try exact Hinv;
    repeat (case_split; run_monad); solve_leaves.
Qed.

Lemma compress_status_leaves (lib : libbfd) (abfd : bfd) (m : machine) :
  done_has_contents (m_sec m) ->
  leaves done_has_contents (bfd_init_section_compress_status lib abfd m).
Proof.
  intros Hinv. unfold bfd_init_section_compress_status. run_monad.
  case_split; run_monad; [exact Hinv|].
  case_split; run_monad; [|exact Hinv].
  case_split; run_monad; [|exact Hinv].
  match goal with
  | |- context [bfd_compress_section_contents ?l ?a ?b ?u ?mm] =>
      pose proof (commit_leaves_done_has_contents l a b u mm Hinv) as Hc;
      destruct (bfd_compress_section_contents l a b u mm)
  end; [exact Hc | exact I | exact I].
Qed.

Lemma compress_section_leaves (lib : libbfd) (abfd : bfd)
    (uncompressed_buffer : option bytes) (m : machine) :
  done_has_contents (m_sec m) ->
  leaves done_has_contents (bfd_compress_section lib abfd uncompressed_buffer m).
Proof.
  intros Hinv. unfold bfd_compress_section. run_monad.
  case_split; run_monad; [exact Hinv|].
  destruct uncompressed_buffer as [ub|]; run_monad; [|exact Hinv].
  pose proof (commit_leaves_done_has_contents lib abfd ub (size (m_sec m)) m
                Hinv) as Hc.
  destruct (bfd_compress_section_contents lib abfd ub (size (m_sec m)) m);
    [exact Hc | exact I | exact I].
Qed.

(** C2, as amended.  Every operation of the subsystem keeps "a section in
    state Done has a contents buffer", provided the buffer handed to
    [bfd_cache_section_contents] is not NULL.  Retrieval, detection and the
    initialisation of the decompress status also keep the converse.  The
    converse is not kept by the cache and by the commit: they can store a
    buffer in a section whose state stays [COMPRESS_SECTION_NONE]. *)
Theorem done_has_contents_is_kept (lib : libbfd) (abfd : bfd) (m : machine)
    (ptr new_contents uncompressed_buffer : option bytes)
    (ub : bytes) (usize : Z) :
  done_has_contents (m_sec m) ->
  new_contents <> None ->
  leaves done_has_contents (bfd_get_full_section_contents lib abfd ptr m)
  /\ leaves done_has_contents
       (bfd_compress_section_contents lib abfd ub usize m)
  /\ leaves done_has_contents
       (bfd_compress_section lib abfd uncompressed_buffer m)
  /\ leaves done_has_contents (bfd_cache_section_contents new_contents m)
  /\ leaves done_has_contents (bfd_is_section_compressed_with_header lib abfd m)
  /\ leaves done_has_contents (bfd_is_section_compressed lib abfd m)
  /\ leaves done_has_contents (bfd_init_section_decompress_status lib abfd m)
  /\ leaves done_has_contents (bfd_init_section_compress_status lib abfd m)
  /\ (contents_iff_done (m_sec m) ->
      leaves contents_iff_done (bfd_get_full_section_contents lib abfd ptr m)
      /\ leaves contents_iff_done
           (bfd_is_section_compressed_with_header lib abfd m)
      /\ leaves contents_iff_done (bfd_is_section_compressed lib abfd m)
      /\ leaves contents_iff_done
           (bfd_init_section_decompress_status lib abfd m)).
Proof.
  intros Hinv Hnew.
  pose proof (full_contents_frame lib abfd ptr m) as Hget.
  repeat split.
  - destruct (bfd_get_full_section_contents lib abfd ptr m);
      cbn [leaves] in *; [rewrite Hget; exact Hinv | exact I | exact I].
  - apply commit_leaves_done_has_contents; exact Hinv.
  - apply compress_section_leaves; exact Hinv.
  - apply cache_leaves_done_has_contents; exact Hnew.
  - apply detection_leaves; exact Hinv.
  - apply detection_leaves; exact Hinv.
  - apply decompress_status_leaves; exact Hinv.
  - apply compress_status_leaves; exact Hinv.
  - destruct (bfd_get_full_section_contents lib abfd ptr m);
      cbn [leaves] in *; [rewrite Hget; assumption | exact I | exact I].
  - apply detection_leaves; assumption.
  - apply detection_leaves; assumption.
  - apply decompress_status_leaves; assumption.
Qed.

Lemma done_has_contents_is_kept_witness :
  let image := [x5a; x4c; x49; x42; x00; x00; x00; x00; x00; x00; x00; x02;
                x02; x61; x62] in
  let lib := demo_lib 0 0 image in
  let abfd := mk_bfd read_direction bfd_target_elf_flavour 15 in
  let m := start (mk_asection ".zdebug_abbrev" SEC_HAS_CONTENTS 2 0 15 0
                    (Some [x61; x62]) COMPRESS_SECTION_DONE) in
  leaves done_has_contents (bfd_get_full_section_contents lib abfd None m)
  /\ leaves done_has_contents
       (bfd_compress_section_contents lib abfd image 15 m)
  /\ leaves done_has_contents (bfd_compress_section lib abfd (Some image) m)
  /\ leaves done_has_contents
       (bfd_cache_section_contents (Some [x61; x62]) m)
  /\ leaves done_has_contents (bfd_is_section_compressed_with_header lib abfd m)
  /\ leaves done_has_contents (bfd_is_section_compressed lib abfd m)
  /\ leaves done_has_contents (bfd_init_section_decompress_status lib abfd m)
  /\ leaves done_has_contents (bfd_init_section_compress_status lib abfd m)
  /\ (contents_iff_done (m_sec m) ->
      leaves contents_iff_done (bfd_get_full_section_contents lib abfd None m)
      /\ leaves contents_iff_done
           (bfd_is_section_compressed_with_header lib abfd m)
      /\ leaves contents_iff_done (bfd_is_section_compressed lib abfd m)
      /\ leaves contents_iff_done
           (bfd_init_section_decompress_status lib abfd m)).
Proof.
  intros image lib abfd m.
  apply (done_has_contents_is_kept lib abfd m None (Some [x61; x62])
           (Some image) image 15).
  - intros _. discriminate.
  - discriminate.
Defined.

(** C2, as stated, fails: a section in state [COMPRESS_SECTION_NONE]
    without contents satisfies the equivalence; after
    [bfd_cache_section_contents] has been given a buffer for it, the section
    has contents and its state is still [COMPRESS_SECTION_NONE]. *)
Lemma cache_on_none_breaks_contents_iff_done :
  let sec := demo_section ".data" SEC_HAS_CONTENTS 4 COMPRESS_SECTION_NONE in
  let buf := [x41; x42; x43; x44] in
  let sec' := mk_asection ".data" (Z.lor SEC_HAS_CONTENTS SEC_IN_MEMORY) 4 0 0 0
                (Some buf) COMPRESS_SECTION_NONE in
  contents_iff_done sec
  /\ bfd_cache_section_contents (Some buf) (start sec)
     = Returned tt (mk_machine sec' bfd_error_no_error [])
  /\ contents sec' <> None
  /\ compress_status sec' <> COMPRESS_SECTION_DONE
  /\ ~ contents_iff_done sec'.
Proof.
  intros sec buf sec'.
  split; [split; [intros H; exfalso; apply H; reflexivity | discriminate]|].
  split; [reflexivity|].
  split; [discriminate|]. split; [discriminate|].
  intros [H _]. assert (Hc : contents sec' <> None) by discriminate.
  specialize (H Hc). discriminate H.
Qed.

(* ================================================================== *)
(** * Further properties of the stream decompressor *)

Lemma buf_write_after (written rest data : bytes) :
  buf_write (written ++ rest) (blen written) data (blen data)
  = written ++ data ++ skipn (length data) rest.
Proof.
  unfold buf_write, blen. rewrite !Nat2Z.id.
  rewrite firstn_all. rewrite firstn_app, firstn_all, Nat.sub_diag.
  cbn [firstn]. rewrite app_nil_r.
  rewrite skipn_app, skipn_all2 by lia.
  replace (length written + length data - length written)%nat
    with (length data) by lia.
  reflexivity.
Qed.

Section DecompressorOutput.

Variable zl : zlib.
Hypothesis contract : inflate_contract zl.
Hypothesis init_ok : zl_inflateInit zl = Z_OK.

(** The loop stores the output of each block behind that of the block
    before and stays inside the output buffer. *)
Lemma inflate_loop_output (usz : Z) :
  forall (fuel : nat) (strm strm' : z_stream) (written rest out' : bytes)
         (rc' : Z),
    0 <= avail_in strm ->
    blen written = usz - avail_out strm ->
    blen rest = avail_out strm ->
    inflate_loop zl usz fuel strm (written ++ rest) Z_OK
    = Some (strm', out', rc') ->
    blen out' = blen (written ++ rest)
    /\ (rc' = Z_OK -> avail_out strm' = 0 ->
        exists ys,
          blocks_yield zl (next_in strm) (avail_in strm) (avail_out strm) ys
          /\ out' = written ++ ys).
Proof.
  induction fuel as [|fuel IH];
    intros strm strm' written rest out' rc' Hin Hw Hr Hrun;
    cbn [inflate_loop] in Hrun;
    destruct ((0 <? avail_in strm) && (0 <? avail_out strm)) eqn:Hcond;
    change (negb (Z_OK =? Z_OK)) with false in Hrun; cbv iota in Hrun.
  - discriminate Hrun.
  - inversion Hrun; subst strm' out' rc'. split; [reflexivity|].
    intros _ H0. exists []. rewrite H0 in *. split; [constructor|].
    destruct rest; [rewrite app_nil_r; reflexivity|].
    unfold blen in Hr. cbn in Hr. lia.
  - apply andb_true_iff in Hcond. destruct Hcond as [Hi Ho].
    apply Z.ltb_lt in Hi, Ho.
    set (r := zl_inflate zl (firstn (Z.to_nat (avail_in strm)) (next_in strm))
                         (avail_out strm)) in *.
    assert (Hp : blen (inf_produced r) <= avail_out strm)
      by (apply (ic_produced zl contract); lia).
    assert (Hc : 0 <= inf_consumed r <= avail_in strm).
    { pose proof (ic_consumed zl contract
                    (firstn (Z.to_nat (avail_in strm)) (next_in strm))
                    (avail_out strm)) as Hle.
      pose proof (blen_firstn_le (avail_in strm) (next_in strm) Hin).
      fold r in Hle. lia. }
    replace (usz - avail_out strm) with (blen written) in Hrun by lia.
    rewrite buf_write_after in Hrun.
    assert (Hlen : blen (written ++ inf_produced r
                         ++ skipn (length (inf_produced r)) rest)
                   = blen (written ++ rest)).
    { unfold blen in *. rewrite !length_app, length_skipn. lia. }
    destruct (inf_rc r =? Z_STREAM_END) eqn:Hend; cbn [negb] in Hrun.
    + apply Z.eqb_eq in Hend.
      unfold inflateReset in Hrun. rewrite init_ok in Hrun.
      change (Z_OK =? Z_OK) with true in Hrun. cbv iota in Hrun.
      rewrite app_assoc in Hrun.
      apply IH in Hrun; cbn [avail_in avail_out next_in].
      * destruct Hrun as [Hl Hy]. split.
        { rewrite Hl. rewrite <- app_assoc. exact Hlen. }
        intros Hrc H0. destruct (Hy Hrc H0) as (ys & Hys & Hout).
        cbn [avail_in avail_out next_in] in Hys.
        exists (inf_produced r ++ ys). split.
        { apply blocks_yield_block; assumption. }
        rewrite Hout. rewrite <- app_assoc. reflexivity.
      * lia.
      * unfold blen in *. rewrite length_app. lia.
      * unfold blen in *. rewrite length_skipn. lia.
    + inversion Hrun; subst strm' out' rc'. split; [exact Hlen|].
      intros Hrc _. exfalso. apply (ic_finish zl contract _ _ Hrc).
  - inversion Hrun; subst strm' out' rc'. split; [reflexivity|].
    intros _ H0. exists []. rewrite H0 in *. split; [constructor|].
    destruct rest; [rewrite app_nil_r; reflexivity|].
    unfold blen in Hr. cbn in Hr. lia.
Qed.

End DecompressorOutput.

(** X1.  On a buffer of exactly [uncompressed_size] bytes (below 2^32)
    [decompress_contents] never changes the length of the buffer, whatever
    the input is, and when it returns true the buffer holds the outputs of
    the decoded blocks one after the other. *)
Theorem decompress_contents_output (zl : zlib) (contract : inflate_contract zl)
    (compressed_buffer : bytes) (compressed_size : Z)
    (uncompressed_buffer : bytes) (uncompressed_size : Z)
    (b : bool) (out : bytes) :
  0 <= uncompressed_size < 2 ^ 32 ->
  blen uncompressed_buffer = uncompressed_size ->
  decompress_contents zl compressed_buffer compressed_size
                      uncompressed_buffer uncompressed_size = Some (b, out) ->
  blen out = uncompressed_size
  /\ (b = true ->
      blocks_yield zl compressed_buffer (to_uInt compressed_size)
                   uncompressed_size out).
Proof.
  intros Hrange Hlen Hrun. unfold decompress_contents in Hrun.
  cbn [avail_in] in Hrun.
  assert (Hu : to_uInt uncompressed_size = uncompressed_size)
    by (unfold to_uInt; apply Z.mod_small; exact Hrange).
  rewrite Hu in Hrun.
  destruct (Z.eq_dec (zl_inflateInit zl) Z_OK) as [Hinit|Hinit].
  - rewrite Hinit in Hrun.
    destruct (inflate_loop zl uncompressed_size _ _ uncompressed_buffer Z_OK)
      as [[[strm' out'] rc']|] eqn:Hloop; [|discriminate Hrun].
    inversion Hrun; subst b out; clear Hrun.
    apply (inflate_loop_output zl contract Hinit uncompressed_size _ _ _ []
             uncompressed_buffer) in Hloop; cbn [avail_in avail_out next_in app];
      try (unfold blen; cbn [length]; lia); try apply to_uInt_nonneg;
      try exact Hlen.
    destruct Hloop as [Hl Hy]. cbn [app] in Hl. split; [lia|].
    intros Hb. apply andb_true_iff in Hb. destruct Hb as [Hb H0].
    apply andb_true_iff in Hb. destruct Hb as [_ Hrc].
    apply Z.eqb_eq in Hrc, H0.
    destruct (Hy Hrc H0) as (ys & Hys & Hout).
    cbn [avail_in avail_out next_in app] in *. subst out'. exact Hys.
  - rewrite (inflate_loop_bad_rc zl uncompressed_size _ _ _ _ Hinit) in Hrun.
    inversion Hrun; subst b out. split; [exact Hlen|].
    unfold inflateEnd. apply Z.eqb_neq in Hinit. rewrite Hinit.
    cbn [andb]. discriminate.
Qed.

Lemma decompress_contents_output_witness :
  blen [x61; x62; x63] = 3
  /\ (true = true ->
      blocks_yield stored_zlib [x02; x61; x62; x01; x63] (to_uInt 5) 3
                   [x61; x62; x63]).
Proof.
  apply (decompress_contents_output stored_zlib stored_zlib_contract
           [x02; x61; x62; x01; x63] 5 [x00; x00; x00] 3 true [x61; x62; x63]).
  - lia.
  - reflexivity.
  - vm_compute. reflexivity.
Defined.

(** X2.  With no input bytes, or with no output bytes expected (sizes
    counted modulo 2^32, as zlib's counters are), [decompress_contents]
    calls [inflate] not at all: the buffer stays as it is, and the result
    is true exactly when [inflateInit] succeeded and the count of output
    bytes expected is zero. *)
Theorem decompress_contents_nothing_to_do (zl : zlib)
    (compressed_buffer : bytes) (compressed_size : Z)
    (uncompressed_buffer : bytes) (uncompressed_size : Z) :
  to_uInt compressed_size = 0 \/ to_uInt uncompressed_size = 0 ->
  decompress_contents zl compressed_buffer compressed_size
                      uncompressed_buffer uncompressed_size
  = Some ((zl_inflateInit zl =? Z_OK) && (to_uInt uncompressed_size =? 0),
          uncompressed_buffer).
Proof.
  intros Hzero. unfold decompress_contents. cbn [avail_in inflate_loop avail_out].
  assert (Hcond : (0 <? to_uInt compressed_size)
                  && (0 <? to_uInt uncompressed_size) = false).
  { destruct Hzero as [-> | ->]; [reflexivity | apply andb_false_r]. }
  rewrite Hcond. unfold inflateEnd.
  destruct (zl_inflateInit zl =? Z_OK); reflexivity.
Qed.

Lemma decompress_contents_nothing_to_do_witness :
  decompress_contents stored_zlib [x01; x41] 2 [] (2 ^ 32)
  = Some ((zl_inflateInit stored_zlib =? Z_OK) && (to_uInt (2 ^ 32) =? 0), [])
  /\ decompress_contents stored_zlib [] 0 [x00; x00] 2
     = Some ((zl_inflateInit stored_zlib =? Z_OK) && (to_uInt 2 =? 0),
             [x00; x00]).
Proof.
  split.
  - apply (decompress_contents_nothing_to_do stored_zlib [x01; x41] 2 []
             (2 ^ 32)).
    right. reflexivity.
  - apply (decompress_contents_nothing_to_do stored_zlib [] 0 [x00; x00] 2).
    left. reflexivity.
Defined.

(* ================================================================== *)
(** * Further properties of full-content retrieval *)


Lemma malloc_balance_app (lib : libbfd) (a b : list event) :
  malloc_balance lib (a ++ b) = malloc_balance lib a + malloc_balance lib b.
Proof.
  induction a as [|e a IH]; [reflexivity|].
  destruct e; cbn [app malloc_balance]; rewrite IH; lia.
Qed.

(** Rewrites the results of the allocator calls found among the
    hypotheses. *)
Ltac use_alloc_results :=
  repeat match goal with
         | H : malloc_ok _ _ = _ |- _ => rewrite H; clear H
         | H : alloc_ok _ _ = _ |- _ => rewrite H; clear H
         end.

(** X4.  [bfd_get_full_section_contents] frees every block it obtained from
    [bfd_malloc], on all paths, except the block that it hands to the caller
    when it returns true for a caller that passed no buffer. *)
Theorem full_contents_memory (lib : libbfd) (abfd : bfd) (ptr : option bytes)
    (m : machine) :
  match bfd_get_full_section_contents lib abfd ptr m with
  | Returned (b, p) m' =>
      exists ev,
        m_trace m' = m_trace m ++ ev
        /\ malloc_balance lib ev
           = Z.b2z (b && is_NULL ptr
                    && negb (full_contents_size abfd (m_sec m) =? 0))
  | Aborted | Diverged => True
  end.
Proof.
  destruct m as [[nm fl sz rs cs ap ct st] err tr].
  unfold bfd_get_full_section_contents. run_monad.
  destruct (full_contents_size abfd _ =? 0) eqn:Hsz.
  - exists []. rewrite app_nil_r, andb_false_r. split; reflexivity.
  - cbn [compress_status compressed_size rawsize size contents].
    destruct st; run_monad;
      repeat (case_split; run_monad; cbn [is_NULL]); try exact I;
      rewrite <- ?app_assoc;
      (first [ eexists; split; [reflexivity|]
             | exists []; split; [symmetry; apply app_nil_r|] ]);
      cbn [app malloc_balance is_NULL andb negb Z.b2z];
      use_alloc_results; reflexivity.
Qed.

Lemma app_tail_neq (tr : list event) (a b : list event) :
  a <> b -> tr ++ a <> tr ++ b.
Proof. intros Hne Heq. apply app_inv_head in Heq. contradiction. Qed.

(** X5.  For a section in state [COMPRESS_SECTION_NONE] and a caller that
    passes no buffer, the call stops with [bfd_error_file_truncated] and
    one message, before any allocation, only if the file size is known
    (non-zero) and smaller than the size asked for, the section is not
    linker created, it has contents and the flavour is not MMO; and it does
    so whenever these five conditions hold. *)
Theorem full_contents_truncated_iff (lib : libbfd) (abfd : bfd) (m : machine) :
  compress_status (m_sec m) = COMPRESS_SECTION_NONE ->
  bfd_get_full_section_contents lib abfd None m
  = Returned (false, None)
      {| m_sec := m_sec m;
         m_error := bfd_error_file_truncated;
         m_trace := m_trace m ++ [EvMessage] |}
  <-> (0 < bfd_get_file_size abfd
       /\ bfd_get_file_size abfd < full_contents_size abfd (m_sec m)
       /\ Z.land (bfd_section_flags (m_sec m)) SEC_LINKER_CREATED = 0
       /\ Z.land (bfd_section_flags (m_sec m)) SEC_HAS_CONTENTS <> 0
       /\ bfd_get_flavour abfd <> bfd_target_mmo_flavour).
Proof.
  intros Hst.
  assert (Hguard : size_exceeds_file abfd (m_sec m)
                     (full_contents_size abfd (m_sec m)) = true
                   <-> (0 < bfd_get_file_size abfd
       /\ bfd_get_file_size abfd < full_contents_size abfd (m_sec m)
       /\ Z.land (bfd_section_flags (m_sec m)) SEC_LINKER_CREATED = 0
       /\ Z.land (bfd_section_flags (m_sec m)) SEC_HAS_CONTENTS <> 0
       /\ bfd_get_flavour abfd <> bfd_target_mmo_flavour)).
  { unfold size_exceeds_file.
    rewrite !andb_true_iff, !negb_true_iff, !Z.ltb_lt, Z.eqb_eq, Z.eqb_neq.
    assert (Hmmo : is_mmo_flavour (bfd_get_flavour abfd) = false
                   <-> bfd_get_flavour abfd <> bfd_target_mmo_flavour).
    { destruct (bfd_get_flavour abfd); cbn; split; intros; congruence. }
    rewrite Hmmo. tauto. }
  rewrite <- Hguard.
  unfold bfd_get_full_section_contents. run_monad. rewrite Hst.
  destruct (full_contents_size abfd (m_sec m) =? 0) eqn:Hsz.
  - split; [intros H; discriminate H|].
    intros Hg. apply Hguard in Hg. apply Z.eqb_eq in Hsz. lia.
  - destruct (size_exceeds_file abfd (m_sec m)
                (full_contents_size abfd (m_sec m))) eqn:Hg;
      run_monad; [tauto|].
    split; [|intros H; discriminate H].
    repeat (case_split; run_monad); intros Hrun; exfalso;
      try discriminate Hrun; inversion Hrun;
      match goal with
      | H : _ ++ _ = _ ++ _ |- _ =>
          rewrite <- ?app_assoc in H; apply app_inv_head in H; discriminate H
      end.
Qed.

Lemma full_contents_truncated_iff_witness :
  let abfd := mk_bfd read_direction bfd_target_elf_flavour 4 in
  let m := start (demo_section ".stub" (Z.lor SEC_HAS_CONTENTS SEC_LINKER_CREATED)
                               8 COMPRESS_SECTION_NONE) in
  bfd_get_full_section_contents (demo_lib 0 0 [x41; x42; x43; x44]) abfd None m
  = Returned (false, None)
      {| m_sec := m_sec m;
         m_error := bfd_error_file_truncated;
         m_trace := m_trace m ++ [EvMessage] |}
  <-> (0 < bfd_get_file_size abfd
       /\ bfd_get_file_size abfd < full_contents_size abfd (m_sec m)
       /\ Z.land (bfd_section_flags (m_sec m)) SEC_LINKER_CREATED = 0
       /\ Z.land (bfd_section_flags (m_sec m)) SEC_HAS_CONTENTS <> 0
       /\ bfd_get_flavour abfd <> bfd_target_mmo_flavour).
Proof.
  intros abfd m.
  apply (full_contents_truncated_iff (demo_lib 0 0 [x41; x42; x43; x44])
           abfd m).
  reflexivity.
Defined.

Lemma sized_section_restore (s : asection) (cs : Z) :
  compress_status s = DECOMPRESS_SECTION_SIZED ->
  with_compress_status DECOMPRESS_SECTION_SIZED
    (with_size (size s)
       (with_rawsize (rawsize s)
          (with_compress_status COMPRESS_SECTION_NONE
             (with_size cs (with_rawsize 0 s))))) = s.
Proof. destruct s; cbn; intros ->; reflexivity. Qed.

(** X6.  Retrieval from a section in state [DECOMPRESS_SECTION_SIZED]:
    the compressed bytes are read with the section shown to the reader in
    state [COMPRESS_SECTION_NONE], with its compressed size as size and no
    raw size; the header (its embedded size, or 12 bytes) is skipped and
    the rest is decompressed into a buffer of the uncompressed size.  When
    the decompression succeeds the caller gets that buffer; when it fails the
    call fails with [bfd_error_bad_value] and both buffers are freed.  In
    both cases the section is as before the call. *)
Theorem full_contents_of_sized_section (lib : libbfd) (abfd : bfd)
    (m : machine) (data out : bytes) (b : bool) :
  let sec := m_sec m in
  let sz := full_contents_size abfd sec in
  let cs := compressed_size sec in
  let chs := to_uInt (bfd_get_compression_header_size lib abfd (Some sec)) in
  let hs := if chs =? 0 then 12 else chs in
  compress_status sec = DECOMPRESS_SECTION_SIZED ->
  sz <> 0 ->
  malloc_ok lib cs = true ->
  malloc_ok lib sz = true ->
  get_section_contents lib abfd
    (with_compress_status COMPRESS_SECTION_NONE
       (with_size cs (with_rawsize 0 sec))) 0 cs = IoOk data ->
  decompress_contents (zlib_of lib)
    (buf_at (buf_write (fresh_buffer cs) 0 data cs) hs)
    (to_size_type (cs - hs)) (fresh_buffer sz) sz = Some (b, out) ->
  bfd_get_full_section_contents lib abfd None m
  = if b then
      Returned (true, Some out)
        {| m_sec := sec; m_error := m_error m;
           m_trace := m_trace m
                      ++ [EvMalloc cs; EvRead 0 cs; EvMalloc sz; EvFree] |}
    else
      Returned (false, None)
        {| m_sec := sec; m_error := bfd_error_bad_value;
           m_trace := m_trace m
                      ++ [EvMalloc cs; EvRead 0 cs; EvMalloc sz; EvFree;
                          EvFree] |}.
Proof.
  cbv zeta. intros Hst Hsz Hm1 Hm2 Hread Hdec.
  unfold bfd_get_full_section_contents. run_monad.
  apply Z.eqb_neq in Hsz. rewrite Hsz, Hst.
  rewrite Hm1. run_monad.
  rewrite Hread. run_monad. rewrite Hm2. run_monad.
  rewrite (sized_section_restore (m_sec m) _ Hst).
  unfold bfd_get_compression_header_size in Hdec. rewrite Hdec.
  destruct b; run_monad; cbn [is_NULL]; run_monad;
    rewrite <- ?app_assoc; reflexivity.
Qed.

Lemma full_contents_of_sized_section_witness :
  let image := [x5a; x4c; x49; x42; x00; x00; x00; x00; x00; x00; x00; x03;
                x02; x61; x62; x01; x63] in
  let lib := demo_lib 0 0 image in
  let abfd := mk_bfd read_direction bfd_target_elf_flavour 17 in
  let sec := mk_asection ".zdebug_line" SEC_HAS_CONTENTS 3 0 17 0 None
               DECOMPRESS_SECTION_SIZED in
  bfd_get_full_section_contents lib abfd None (start sec)
  = Returned (true, Some [x61; x62; x63])
      {| m_sec := sec; m_error := bfd_error_no_error;
         m_trace := [EvMalloc 17; EvRead 0 17; EvMalloc 3; EvFree] |}.
Proof.
  intros image lib abfd sec.
  apply (full_contents_of_sized_section lib abfd (start sec) image
           [x61; x62; x63] true).
  - reflexivity.
  - vm_compute. discriminate.
  - reflexivity.
  - reflexivity.
  - reflexivity.
  - vm_compute. reflexivity.
Defined.

Lemma copy_of_contents (sz : Z) (buf : bytes) :
  0 <= sz <= blen buf ->
  buf_write (fresh_buffer sz) 0 buf sz = firstn (Z.to_nat sz) buf.
Proof.
  intros Hsz. unfold buf_write, fresh_buffer, blen in *.
  cbn [Z.to_nat firstn app Nat.add].
  rewrite length_firstn. rewrite Nat.min_l by lia.
  rewrite skipn_all2 by (rewrite repeat_length; lia).
  apply app_nil_r.
Qed.

(** X7.  Once a buffer has been stashed with [bfd_cache_section_contents]
    in a section that was in state [DECOMPRESS_SECTION_SIZED] or
    [COMPRESS_SECTION_DONE], retrieval gives back the bytes of that buffer
    and makes no read of the backing store and no decompression: the only
    call it makes is the allocation of the copy. *)
Theorem cache_then_full_contents (lib : libbfd) (abfd : bfd) (m : machine)
    (buf : bytes) :
  let sz := full_contents_size abfd (m_sec m) in
  compress_status (m_sec m) = DECOMPRESS_SECTION_SIZED
  \/ compress_status (m_sec m) = COMPRESS_SECTION_DONE ->
  0 < sz <= blen buf ->
  malloc_ok lib sz = true ->
  bind (bfd_cache_section_contents (Some buf))
       (fun _ => bfd_get_full_section_contents lib abfd None) m
  = Returned (true, Some (firstn (Z.to_nat sz) buf))
      {| m_sec := with_flags (Z.lor (flags (m_sec m)) SEC_IN_MEMORY)
                    (with_contents (Some buf)
                       (with_compress_status COMPRESS_SECTION_DONE (m_sec m)));
         m_error := m_error m;
         m_trace := m_trace m ++ [EvMalloc sz] |}.
Proof.
  cbv zeta. intros Hst Hsz Hmalloc.
  destruct m as [[nm fl sz0 rs cs ap ct st] err tr].
  unfold bfd_cache_section_contents, bfd_get_full_section_contents.
  unfold full_contents_size in *.
  cbn [m_sec m_error m_trace compress_status flags rawsize size] in *.
  run_monad.
  destruct Hst as [-> | ->]; run_monad;
    repeat (progress
              cbn [m_sec m_error m_trace with_flags with_contents
                   with_compress_status name flags size rawsize
                   compressed_size alignment_power contents compress_status]);
    set (sz := if negb (direction_eqb (direction abfd) write_direction)
                  && negb (rs =? 0) then rs else sz0) in *;
    (assert (Hne : (sz =? 0) = false) by (apply Z.eqb_neq; lia));
    rewrite Hne, Hmalloc; run_monad;
    rewrite copy_of_contents by lia; reflexivity.
Qed.

Lemma cache_then_full_contents_witness :
  let lib := demo_lib 0 0 [] in
  let abfd := mk_bfd read_direction bfd_target_elf_flavour 17 in
  let sec := mk_asection ".zdebug_line" SEC_HAS_CONTENTS 3 0 17 0 None
               DECOMPRESS_SECTION_SIZED in
  bind (bfd_cache_section_contents (Some [x61; x62; x63]))
       (fun _ => bfd_get_full_section_contents lib abfd None) (start sec)
  = Returned (true, Some [x61; x62; x63])
      {| m_sec := with_flags (Z.lor SEC_HAS_CONTENTS SEC_IN_MEMORY)
                    (with_contents (Some [x61; x62; x63])
                       (with_compress_status COMPRESS_SECTION_DONE sec));
         m_error := bfd_error_no_error;
         m_trace := [EvMalloc 3] |}.
Proof.
  intros lib abfd sec.
  apply (cache_then_full_contents lib abfd (start sec) [x61; x62; x63]).
  - left. reflexivity.
  - vm_compute. split; [reflexivity | discriminate].
  - reflexivity.
Defined.

(* ================================================================== *)
(** * Further properties of compression detection *)

(** What the functions see of a header array filled by a read of twelve
    bytes that delivered at least twelve. *)
Lemma legacy_header_view (data : bytes) :
  (12 <= length data)%nat ->
  let header := buf_write (fresh_buffer MAX_COMPRESSION_HEADER_SIZE) 0 data 12 in
  startswith header ZLIB_magic = startswith data ZLIB_magic
  /\ buf_get header 4 = buf_get data 4
  /\ bfd_getb64 (buf_at header 4) = bfd_getb64 (buf_at data 4).
Proof.
  intros Hlen.
  destruct data as [|b0 [|b1 [|b2 [|b3 [|b4 [|b5 [|b6 [|b7 [|b8 [|b9
                   [|b10 [|b11 data]]]]]]]]]]]]; cbn [length] in Hlen; try lia.
  repeat split.
Qed.

(** X8.  In a format without embedded header, when the read of the twelve
    header bytes succeeds, the section is reported as compressed exactly
    when the bytes start with "ZLIB" and it is not the case that the
    section is called ".debug_str" and the byte at offset 4 is printable.
    The header size reported is 0, the alignment power 0, and the
    uncompressed size is the big-endian number in bytes 4 to 11 for a
    compressed section and the size of the section otherwise;
    [bfd_is_section_compressed] asks in addition for that number not to be
    zero. *)
Theorem detection_legacy_exact (lib : libbfd) (abfd : bfd) (m : machine)
    (data : bytes) :
  let hit := startswith data ZLIB_magic
             && negb (is_debug_str (m_sec m) && ISPRINT (buf_get data 4)) in
  let m' := {| m_sec := m_sec m; m_error := m_error m;
               m_trace := m_trace m ++ [EvRead 0 12] |} in
  bfd_get_compression_header_size lib abfd (Some (m_sec m)) = 0 ->
  get_section_contents lib abfd
    (with_compress_status COMPRESS_SECTION_NONE (m_sec m)) 0 12 = IoOk data ->
  (12 <= length data)%nat ->
  bfd_is_section_compressed_with_header lib abfd m
  = Returned (mk_detection hit 0
                (if hit then bfd_getb64 (buf_at data 4) else size (m_sec m)) 0)
             m'
  /\ bfd_is_section_compressed lib abfd m
     = Returned (hit && (0 <? bfd_getb64 (buf_at data 4))) m'.
Proof.
  intros hit m' Hhs Hread Hlen.
  destruct (legacy_header_view data Hlen) as (Hmagic & Hb4 & Hsize).
  assert (Hdet : bfd_is_section_compressed_with_header lib abfd m
                 = Returned (mk_detection hit 0
                     (if hit then bfd_getb64 (buf_at data 4)
                      else size (m_sec m)) 0) m').
  { unfold bfd_is_section_compressed_with_header. run_monad.
    unfold bfd_get_compression_header_size in Hhs. rewrite Hhs.
    change (MAX_COMPRESSION_HEADER_SIZE <? 0) with false.
    change (0 =? 0) with true. cbv iota.
    change (to_size_type 12) with 12. cbv beta.
    rewrite Hread. run_monad.
    rewrite Hmagic, Hb4, Hsize. cbn [negb].
    unfold is_debug_str at 1. cbn [name with_compress_status].
    fold (is_debug_str (m_sec m)).
    subst hit m'.
    destruct (startswith data ZLIB_magic);
      [destruct (is_debug_str (m_sec m) && ISPRINT (buf_get data 4))|];
      cbn [andb negb m_sec m_error m_trace size with_compress_status];
      rewrite with_compress_status_restore; reflexivity. }
  split; [exact Hdet|].
  unfold bfd_is_section_compressed. unfold bind at 1. rewrite Hdet.
  unfold ret. cbn [det_compressed det_header_size det_uncompressed_size].
  change (0 <=? 0) with true. rewrite andb_true_r.
  subst hit. destruct (startswith data ZLIB_magic && _); reflexivity.
Qed.

Lemma detection_legacy_exact_witness :
  let image := [x5a; x4c; x49; x42; x00; x00; x00; x00; x00; x00; x01; x00;
                x01; x41] in
  let lib := demo_lib 0 0 image in
  let abfd := mk_bfd read_direction bfd_target_elf_flavour 14 in
  let m := start (demo_section ".zdebug_loc" SEC_HAS_CONTENTS 14
                               COMPRESS_SECTION_NONE) in
  let m' := {| m_sec := m_sec m; m_error := m_error m;
               m_trace := m_trace m ++ [EvRead 0 12] |} in
  bfd_is_section_compressed_with_header lib abfd m
  = Returned (mk_detection true 0 256 0) m'
  /\ bfd_is_section_compressed lib abfd m = Returned true m'.
Proof.
  intros image lib abfd m.
  apply (detection_legacy_exact lib abfd m (firstn 12 image)).
  - reflexivity.
  - reflexivity.
  - vm_compute. lia.
Defined.

(** X9.  In a format with an embedded header (a header size that is not
    zero), when the read of the header succeeds the section is always
    reported as compressed.  If the format accepts the header, its size,
    the uncompressed size and the alignment power found in it are reported;
    if it does not, the header size reported is -1, the uncompressed size is
    the size of the section, the alignment power is 0, and
    [bfd_is_section_compressed] answers false. *)
Theorem detection_embedded_exact (lib : libbfd) (abfd : bfd) (m : machine)
    (data : bytes) :
  let chs := bfd_get_compression_header_size lib abfd (Some (m_sec m)) in
  let header := buf_write (fresh_buffer MAX_COMPRESSION_HEADER_SIZE) 0 data
                          (to_size_type chs) in
  let m' := {| m_sec := m_sec m; m_error := m_error m;
               m_trace := m_trace m ++ [EvRead 0 (to_size_type chs)] |} in
  chs <> 0 ->
  chs <= MAX_COMPRESSION_HEADER_SIZE ->
  get_section_contents lib abfd
    (with_compress_status COMPRESS_SECTION_NONE (m_sec m)) 0
    (to_size_type chs) = IoOk data ->
  match check_compression_header lib abfd header
          (with_compress_status COMPRESS_SECTION_NONE (m_sec m)) with
  | Some (us, ap) =>
      bfd_is_section_compressed_with_header lib abfd m
      = Returned (mk_detection true chs us ap) m'
      /\ bfd_is_section_compressed lib abfd m
         = Returned ((0 <=? chs) && (0 <? us)) m'
  | None =>
      bfd_is_section_compressed_with_header lib abfd m
      = Returned (mk_detection true (-1) (size (m_sec m)) 0) m'
      /\ bfd_is_section_compressed lib abfd m = Returned false m'
  end.
Proof.
  intros chs header m' Hne Hmax Hread.
  assert (Hdet : bfd_is_section_compressed_with_header lib abfd m
    = match check_compression_header lib abfd header
              (with_compress_status COMPRESS_SECTION_NONE (m_sec m)) with
      | Some (us, ap) => Returned (mk_detection true chs us ap) m'
      | None => Returned (mk_detection true (-1) (size (m_sec m)) 0) m'
      end).
  { unfold bfd_is_section_compressed_with_header. run_monad.
    fold (bfd_get_compression_header_size lib abfd (Some (m_sec m))).
    fold chs.
    apply Z.ltb_ge in Hmax. rewrite Hmax.
    apply Z.eqb_neq in Hne. rewrite Hne. cbv beta.
    rewrite Hread. run_monad. cbn [negb]. fold header.
    destruct (check_compression_header lib abfd header _) as [[us ap]|];
      run_monad; rewrite with_compress_status_restore; reflexivity. }
  unfold bfd_is_section_compressed. unfold bind at 1 2.
  rewrite Hdet.
  destruct (check_compression_header lib abfd header _) as [[us ap]|];
    split; reflexivity.
Qed.

Lemma detection_embedded_exact_witness :
  let image := [x02; x00; x00; x00; x00; x00; x00; x00;
                x00; x00; x00; x00; x00; x00; x00; x30;
                x00; x00; x00; x00; x00; x00; x00; x03; x01; x41] in
  let lib := demo_lib 24 24 image in
  let abfd := mk_bfd read_direction bfd_target_elf_flavour 26 in
  let m := start (demo_section ".debug_info" SEC_HAS_CONTENTS 26
                               COMPRESS_SECTION_NONE) in
  let m' := {| m_sec := m_sec m; m_error := m_error m;
               m_trace := m_trace m ++ [EvRead 0 24] |} in
  bfd_is_section_compressed_with_header lib abfd m
  = Returned (mk_detection true (-1) 26 0) m'
  /\ bfd_is_section_compressed lib abfd m = Returned false m'.
Proof.
  intros image lib abfd m.
  apply (detection_embedded_exact lib abfd m (firstn 24 image)).
  - vm_compute. discriminate.
  - vm_compute. discriminate.
  - reflexivity.
Defined.

(* ================================================================== *)
(** * Properties of bfd_init_section_decompress_status *)

(** What the two ways out of the function leave behind. *)
Lemma decompress_status_outcomes (lib : libbfd) (abfd : bfd) (m : machine) :
  match bfd_init_section_decompress_status lib abfd m with
  | Returned b m' =>
      if b then
        rawsize (m_sec m) = 0
        /\ contents (m_sec m) = None
        /\ compress_status (m_sec m) = COMPRESS_SECTION_NONE
        /\ (exists us ap,
              m_sec m'
              = with_compress_status DECOMPRESS_SECTION_SIZED
                  (with_alignment_power ap
                     (with_size us
                        (with_compressed_size (size (m_sec m)) (m_sec m)))))
        /\ m_error m' = m_error m
      else
        m_sec m' = m_sec m
        /\ (m_error m' = bfd_error_invalid_operation
            \/ m_error m' = bfd_error_wrong_format)
  | Aborted =>
      MAX_COMPRESSION_HEADER_SIZE
      < bfd_get_compression_header_size lib abfd (Some (m_sec m))
  | Diverged => False
  end.
Proof.
  destruct m as [[nm fl sz rs cs ap ct st] err tr].
  unfold bfd_init_section_decompress_status. run_monad.
  cbn [rawsize contents compress_status size].
  destruct (MAX_COMPRESSION_HEADER_SIZE <? _) eqn:Hmax;
    [apply Z.ltb_lt in Hmax; exact Hmax|].
  destruct (rs =? 0) eqn:Hrs; cbn [negb orb]; run_monad;
    [|split; [reflexivity | left; reflexivity]].
  apply Z.eqb_eq in Hrs. subst rs.
  destruct ct as [c|]; cbn [is_NULL negb orb]; run_monad;
    [split; [reflexivity | left; reflexivity]|].
  destruct st; cbn [is_NONE negb]; run_monad;
    try (split; [reflexivity | left; reflexivity]).
  repeat (case_split; run_monad);
    try (split; [reflexivity | (left; reflexivity) || (right; reflexivity)]);
    (split; [reflexivity|]); (split; [reflexivity|]); (split; [reflexivity|]);
    (split; [eexists _, _; reflexivity | reflexivity]).
Qed.

(** X10.  [bfd_init_section_decompress_status] either fails, and then the
    section is exactly as before and the error is
    [bfd_error_invalid_operation] or [bfd_error_wrong_format]; or it
    succeeds, and then the section had no raw size, no contents and state
    [COMPRESS_SECTION_NONE], its old size has become the compressed size
    and its state is [DECOMPRESS_SECTION_SIZED], with nothing else but size
    and alignment power changed. *)
Theorem decompress_status_all_or_nothing (lib : libbfd) (abfd : bfd)
    (m : machine) :
  match bfd_init_section_decompress_status lib abfd m with
  | Returned true m' =>
      rawsize (m_sec m) = 0
      /\ contents (m_sec m) = None
      /\ compress_status (m_sec m) = COMPRESS_SECTION_NONE
      /\ (exists us ap,
            m_sec m'
            = with_compress_status DECOMPRESS_SECTION_SIZED
                (with_alignment_power ap
                   (with_size us
                      (with_compressed_size (size (m_sec m)) (m_sec m)))))
      /\ m_error m' = m_error m
  | Returned false m' =>
      m_sec m' = m_sec m
      /\ (m_error m' = bfd_error_invalid_operation
          \/ m_error m' = bfd_error_wrong_format)
  | Aborted =>
      MAX_COMPRESSION_HEADER_SIZE
      < bfd_get_compression_header_size lib abfd (Some (m_sec m))
  | Diverged => False
  end.
Proof.
  pose proof (decompress_status_outcomes lib abfd m) as H.
  destruct (bfd_init_section_decompress_status lib abfd m) as [[|] m'| |];
    exact H.
Qed.

(** X11.  A section can be set up for decompression only once: after a call
    of [bfd_init_section_decompress_status] that returned true, a second
    call makes no read, fails with [bfd_error_invalid_operation] and leaves
    the section in state [DECOMPRESS_SECTION_SIZED] with the sizes of the
    first call. *)
Theorem decompress_status_only_once (lib : libbfd) (abfd : bfd)
    (m m1 : machine) :
  bfd_init_section_decompress_status lib abfd m = Returned true m1 ->
  bfd_get_compression_header_size lib abfd (Some (m_sec m1))
  <= MAX_COMPRESSION_HEADER_SIZE ->
  bfd_init_section_decompress_status lib abfd m1
  = Returned false
      {| m_sec := m_sec m1;
         m_error := bfd_error_invalid_operation;
         m_trace := m_trace m1 |}
  /\ compress_status (m_sec m1) = DECOMPRESS_SECTION_SIZED
  /\ compressed_size (m_sec m1) = size (m_sec m).
Proof.
  intros Hrun Hmax.
  pose proof (decompress_status_outcomes lib abfd m) as H.
  rewrite Hrun in H. destruct H as (_ & _ & _ & (us & ap & Hsec) & _).
  assert (Hst : compress_status (m_sec m1) = DECOMPRESS_SECTION_SIZED)
    by (rewrite Hsec; reflexivity).
  split; [|split; [exact Hst | rewrite Hsec; reflexivity]].
  unfold bfd_init_section_decompress_status. run_monad.
  apply Z.ltb_ge in Hmax. unfold bfd_get_compression_header_size in Hmax.
  rewrite Hmax, Hst. cbn [is_NONE negb]. rewrite orb_true_r.
  reflexivity.
Qed.

Lemma decompress_status_only_once_witness :
  let image := [x5a; x4c; x49; x42; x00; x00; x00; x00; x00; x00; x00; x03;
                x02; x61; x62; x01; x63] in
  let lib := demo_lib 0 0 image in
  let abfd := mk_bfd read_direction bfd_target_elf_flavour 17 in
  let m := start (demo_section ".zdebug_line" SEC_HAS_CONTENTS 17
                               COMPRESS_SECTION_NONE) in
  let m1 := {| m_sec := mk_asection ".zdebug_line" SEC_HAS_CONTENTS 3 0 17 0
                          None DECOMPRESS_SECTION_SIZED;
               m_error := bfd_error_no_error;
               m_trace := [EvRead 0 12] |} in
  bfd_init_section_decompress_status lib abfd m1
  = Returned false
      {| m_sec := m_sec m1;
         m_error := bfd_error_invalid_operation;
         m_trace := m_trace m1 |}
  /\ compress_status (m_sec m1) = DECOMPRESS_SECTION_SIZED
  /\ compressed_size (m_sec m1) = size (m_sec m).
Proof.
  intros image lib abfd m m1.
  apply (decompress_status_only_once lib abfd m m1).
  - vm_compute. reflexivity.
  - vm_compute. discriminate.
Defined.

(** X12.  For a format without embedded header and a section with no raw
    size, no contents and state [COMPRESS_SECTION_NONE], the set-up for
    decompression succeeds exactly when the twelve header bytes start with
    "ZLIB" (the name of the section and the byte at offset 4 play no part
    here).  It then records the size of the section as compressed size,
    takes the big-endian number in bytes 4 to 11 as the new size and sets
    alignment power 0; otherwise it fails with [bfd_error_wrong_format]. *)
Theorem decompress_status_legacy (lib : libbfd) (abfd : bfd) (m : machine)
    (data : bytes) :
  bfd_get_compression_header_size lib abfd (Some (m_sec m)) = 0 ->
  rawsize (m_sec m) = 0 ->
  contents (m_sec m) = None ->
  compress_status (m_sec m) = COMPRESS_SECTION_NONE ->
  get_section_contents lib abfd (m_sec m) 0 12 = IoOk data ->
  (12 <= length data)%nat ->
  bfd_init_section_decompress_status lib abfd m
  = if startswith data ZLIB_magic then
      Returned true
        {| m_sec := with_compress_status DECOMPRESS_SECTION_SIZED
                      (with_alignment_power 0
                         (with_size (bfd_getb64 (buf_at data 4))
                            (with_compressed_size (size (m_sec m)) (m_sec m))));
           m_error := m_error m;
           m_trace := m_trace m ++ [EvRead 0 12] |}
    else
      Returned false
        {| m_sec := m_sec m;
           m_error := bfd_error_wrong_format;
           m_trace := m_trace m ++ [EvRead 0 12] |}.
Proof.
  intros Hhs Hrs Hct Hst Hread Hlen.
  destruct (legacy_header_view data Hlen) as (Hmagic & _ & Hsize).
  unfold bfd_init_section_decompress_status. run_monad.
  unfold bfd_get_compression_header_size in Hhs. rewrite Hhs.
  change (MAX_COMPRESSION_HEADER_SIZE <? 0) with false.
  change (0 =? 0) with true. cbv iota.
  rewrite Hrs, Hct, Hst. change (0 =? 0) with true.
  cbn [negb orb is_NULL is_NONE]. run_monad.
  change (to_size_type 12) with 12. rewrite Hread. run_monad.
  rewrite Hmagic, Hsize.
  destruct (startswith data ZLIB_magic); cbn [negb]; run_monad;
    [|reflexivity].
  destruct (m_sec m); reflexivity.
Qed.

Lemma decompress_status_legacy_witness :
  let image := [x5a; x4c; x49; x42; x78; x78; x78; x78; x00; x00; x00; x00;
                x41; x42] in
  let lib := demo_lib 0 0 image in
  let abfd := mk_bfd read_direction bfd_target_elf_flavour 14 in
  let m := start (demo_section ".debug_str" SEC_HAS_CONTENTS 14
                               COMPRESS_SECTION_NONE) in
  bfd_init_section_decompress_status lib abfd m
  = Returned true
      {| m_sec := with_compress_status DECOMPRESS_SECTION_SIZED
                    (with_alignment_power 0
                       (with_size 0x7878787800000000
                          (with_compressed_size 14 (m_sec m))));
         m_error := bfd_error_no_error;
         m_trace := [EvRead 0 12] |}.
Proof.
  intros image lib abfd m.
  apply (decompress_status_legacy lib abfd m (firstn 12 image)).
  - reflexivity.
  - reflexivity.
  - reflexivity.
  - reflexivity.
  - reflexivity.
  - vm_compute. lia.
Defined.

(** The run of the retrieval on a section in state
    [DECOMPRESS_SECTION_SIZED] whose compressed bytes decompress. *)
Lemma full_contents_sized_run (lib : libbfd) (abfd : bfd) (m : machine)
    (hs : Z) (data out : bytes) :
  compress_status (m_sec m) = DECOMPRESS_SECTION_SIZED ->
  full_contents_size abfd (m_sec m) <> 0 ->
  malloc_ok lib (compressed_size (m_sec m)) = true ->
  malloc_ok lib (full_contents_size abfd (m_sec m)) = true ->
  get_section_contents lib abfd
    (with_compress_status COMPRESS_SECTION_NONE
       (with_size (compressed_size (m_sec m)) (with_rawsize 0 (m_sec m))))
    0 (compressed_size (m_sec m)) = IoOk data ->
  (if to_uInt (get_compression_header_size lib abfd (Some (m_sec m))) =? 0
   then 12
   else to_uInt (get_compression_header_size lib abfd (Some (m_sec m)))) = hs ->
  decompress_contents (zlib_of lib)
    (buf_at (buf_write (fresh_buffer (compressed_size (m_sec m))) 0 data
                       (compressed_size (m_sec m))) hs)
    (to_size_type (compressed_size (m_sec m) - hs))
    (fresh_buffer (full_contents_size abfd (m_sec m)))
    (full_contents_size abfd (m_sec m)) = Some (true, out) ->
  bfd_get_full_section_contents lib abfd None m
  = Returned (true, Some out)
      {| m_sec := m_sec m; m_error := m_error m;
         m_trace := m_trace m
                    ++ [EvMalloc (compressed_size (m_sec m));
                        EvRead 0 (compressed_size (m_sec m));
                        EvMalloc (full_contents_size abfd (m_sec m));
                        EvFree] |}.
Proof.
  intros Hst Hsz Hm1 Hm2 Hread Hhs Hdec.
  unfold bfd_get_full_section_contents. run_monad.
  apply Z.eqb_neq in Hsz. rewrite Hsz, Hst.
  rewrite Hm1. run_monad.
  rewrite Hread. run_monad. rewrite Hm2. run_monad.
  rewrite (sized_section_restore (m_sec m) _ Hst).
  rewrite Hhs, Hdec.
  run_monad; rewrite <- ?app_assoc; reflexivity.
Qed.

(** X13.  Transparent decompression of a section with a legacy header:
    after [bfd_init_section_decompress_status] has accepted the header,
    [bfd_get_full_section_contents] reads as many bytes as the section had
    on file, skips the twelve header bytes, decompresses the rest into a
    buffer of the size announced in the header and returns it.  The section
    is left in state [DECOMPRESS_SECTION_SIZED] with the announced size. *)
Theorem decompress_status_then_full_contents (lib : libbfd) (abfd : bfd)
    (m : machine) (hdr data out : bytes) :
  let sec := m_sec m in
  let cs := size sec in
  let us := bfd_getb64 (buf_at hdr 4) in
  let sec1 := with_compress_status DECOMPRESS_SECTION_SIZED
                (with_alignment_power 0
                   (with_size us (with_compressed_size cs sec))) in
  bfd_get_compression_header_size lib abfd (Some sec) = 0 ->
  bfd_get_compression_header_size lib abfd (Some sec1) = 0 ->
  rawsize sec = 0 ->
  contents sec = None ->
  compress_status sec = COMPRESS_SECTION_NONE ->
  get_section_contents lib abfd sec 0 12 = IoOk hdr ->
  (12 <= length hdr)%nat ->
  startswith hdr ZLIB_magic = true ->
  us <> 0 ->
  malloc_ok lib cs = true ->
  malloc_ok lib us = true ->
  get_section_contents lib abfd
    (with_compress_status COMPRESS_SECTION_NONE
       (with_size cs (with_rawsize 0 sec1))) 0 cs = IoOk data ->
  decompress_contents (zlib_of lib)
    (buf_at (buf_write (fresh_buffer cs) 0 data cs) 12)
    (to_size_type (cs - 12)) (fresh_buffer us) us = Some (true, out) ->
  bind (bfd_init_section_decompress_status lib abfd)
       (fun _ => bfd_get_full_section_contents lib abfd None) m
  = Returned (true, Some out)
      {| m_sec := sec1;
         m_error := m_error m;
         m_trace := m_trace m
                    ++ [EvRead 0 12; EvMalloc cs; EvRead 0 cs; EvMalloc us;
                        EvFree] |}.
Proof.
  cbv zeta.
  intros Hhs Hhs1 Hrs Hct Hst Hread Hlen Hmagic Hus Hm1 Hm2 Hread2 Hdec.
  destruct (legacy_header_view hdr Hlen) as (Hmagic' & _ & Hsize).
  rewrite Hmagic in Hmagic'.
  unfold bind at 1.
  assert (Hinit : bfd_init_section_decompress_status lib abfd m
    = Returned true
        {| m_sec := with_compress_status DECOMPRESS_SECTION_SIZED
                      (with_alignment_power 0
                         (with_size (bfd_getb64 (buf_at hdr 4))
                            (with_compressed_size (size (m_sec m)) (m_sec m))));
           m_error := m_error m;
           m_trace := m_trace m ++ [EvRead 0 12] |}).
  { unfold bfd_init_section_decompress_status. run_monad.
    unfold bfd_get_compression_header_size in Hhs. rewrite Hhs.
    change (MAX_COMPRESSION_HEADER_SIZE <? 0) with false.
    change (0 =? 0) with true. cbv iota.
    rewrite Hrs, Hct, Hst. change (0 =? 0) with true.
    cbn [negb orb is_NULL is_NONE]. run_monad.
    change (to_size_type 12) with 12. rewrite Hread. run_monad.
    rewrite Hmagic', Hsize. cbn [negb]. run_monad.
    destruct (m_sec m); reflexivity. }
  rewrite Hinit.
  set (sec1 := with_compress_status DECOMPRESS_SECTION_SIZED _) in *.
  assert (Hsz : full_contents_size abfd sec1 = bfd_getb64 (buf_at hdr 4)).
  { unfold full_contents_size, sec1.
    cbn [rawsize size with_compress_status with_alignment_power with_size
         with_compressed_size].
    rewrite Hrs. change (0 =? 0) with true. cbn [negb].
    rewrite andb_false_r. reflexivity. }
  assert (Hcs : compressed_size sec1 = size (m_sec m)) by reflexivity.
  assert (Hst1 : compress_status sec1 = DECOMPRESS_SECTION_SIZED)
    by reflexivity.
  rewrite (full_contents_sized_run lib abfd _ 12 data out);
    cbn [m_sec m_error m_trace]; rewrite ?Hsz, ?Hcs;
    try assumption; try reflexivity.
  - rewrite <- app_assoc. reflexivity.
  - unfold bfd_get_compression_header_size in Hhs1. rewrite Hhs1.
    reflexivity.
Qed.

Lemma decompress_status_then_full_contents_witness :
  let image := [x5a; x4c; x49; x42; x00; x00; x00; x00; x00; x00; x00; x03;
                x02; x61; x62; x01; x63] in
  let lib := demo_lib 0 0 image in
  let abfd := mk_bfd read_direction bfd_target_elf_flavour 17 in
  let sec := demo_section ".zdebug_line" SEC_HAS_CONTENTS 17
                          COMPRESS_SECTION_NONE in
  bind (bfd_init_section_decompress_status lib abfd)
       (fun _ => bfd_get_full_section_contents lib abfd None) (start sec)
  = Returned (true, Some [x61; x62; x63])
      {| m_sec := mk_asection ".zdebug_line" SEC_HAS_CONTENTS 3 0 17 0 None
                    DECOMPRESS_SECTION_SIZED;
         m_error := bfd_error_no_error;
         m_trace := [EvRead 0 12; EvMalloc 17; EvRead 0 17; EvMalloc 3;
                     EvFree] |}.
Proof.
  intros image lib abfd sec.
  apply (decompress_status_then_full_contents lib abfd (start sec)
           (firstn 12 image) image [x61; x62; x63]).
  - reflexivity.
  - reflexivity.
  - reflexivity.
  - reflexivity.
  - reflexivity.
  - reflexivity.
  - vm_compute. lia.
  - reflexivity.
  - vm_compute. discriminate.
  - reflexivity.
  - reflexivity.
  - reflexivity.
  - vm_compute. reflexivity.
Defined.

(* ================================================================== *)
(** * Further properties of the commit *)

(** The ways out of [bfd_compress_section_contents]: every return comes
    after the read of the header made by the detection; a return of 0 for
    a failure leaves contents and state alone; every other return has
    stored a buffer. *)
Lemma commit_paths (lib : libbfd) (abfd : bfd) (ub : bytes) (usize : Z)
    (m : machine) :
  match bfd_compress_section_contents lib abfd ub usize m with
  | Returned n m' =>
      (exists c ev, m_trace m' = m_trace m ++ EvRead 0 c :: ev)
      /\ ((n = 0
           /\ contents (m_sec m') = contents (m_sec m)
           /\ compress_status (m_sec m') = compress_status (m_sec m))
          \/ (contents (m_sec m') <> None
              /\ compress_status (m_sec m') = COMPRESS_SECTION_DONE)
          \/ (n = usize
              /\ m_sec m' = with_compress_status COMPRESS_SECTION_NONE
                              (with_contents (Some ub) (m_sec m))))
  | Aborted =>
      MAX_COMPRESSION_HEADER_SIZE
      < bfd_get_compression_header_size lib abfd (Some (m_sec m))
      \/ exists d m1,
           bfd_is_section_compressed_with_header lib abfd m = Returned d m1
           /\ det_compressed d = true /\ det_header_size d < 0
  | Diverged => True
  end.
Proof.
  pose proof (detection_frame lib abfd m) as Hframe.
  unfold bfd_compress_section_contents. unfold bind at 1.
  destruct (bfd_is_section_compressed_with_header lib abfd m)
    as [d m1| |]; [|left; exact Hframe|exact I].
  destruct Hframe as (Hsec & _ & (count & Htr)).
  cbv zeta. run_monad.
  destruct (det_compressed d && (det_header_size d <? 0)) eqn:Habort.
  { right. exists d, m1. apply andb_true_iff in Habort.
    destruct Habort as [Hc Hneg]. apply Z.ltb_lt in Hneg.
    split; [reflexivity | split; assumption]. }
  repeat (case_split; run_monad); try exact I;
    (split;
     [ rewrite Htr, <- ?app_assoc; cbn [app]; eexists _, _; reflexivity
     | rewrite ?Hsec;
       cbn [contents compress_status with_flags with_size with_rawsize
            with_compressed_size with_alignment_power with_contents
            with_compress_status];
       first [ left; split; [reflexivity | split; reflexivity]
             | right; left; split; [discriminate | reflexivity]
             | right; right; split; reflexivity ] ]).
Qed.

(** X14.  [bfd_compress_section_contents] has three kinds of return: a
    failure, which returns 0 and leaves contents and state of the section as
    they were; a commit, after which the section has contents and state
    [COMPRESS_SECTION_DONE]; and the no-gain return, which gives back the
    raw size with the raw buffer as contents and state
    [COMPRESS_SECTION_NONE].  It stops in [abort] only for a header size
    above 24 or for a compressed section whose header the format does not
    understand (header size -1). *)
Theorem commit_outcomes (lib : libbfd) (abfd : bfd) (ub : bytes) (usize : Z)
    (m : machine) :
  match bfd_compress_section_contents lib abfd ub usize m with
  | Returned n m' =>
      (n = 0
       /\ contents (m_sec m') = contents (m_sec m)
       /\ compress_status (m_sec m') = compress_status (m_sec m))
      \/ (contents (m_sec m') <> None
          /\ compress_status (m_sec m') = COMPRESS_SECTION_DONE)
      \/ (n = usize
          /\ m_sec m' = with_compress_status COMPRESS_SECTION_NONE
                          (with_contents (Some ub) (m_sec m)))
  | Aborted =>
      MAX_COMPRESSION_HEADER_SIZE
      < bfd_get_compression_header_size lib abfd (Some (m_sec m))
      \/ exists d m1,
           bfd_is_section_compressed_with_header lib abfd m = Returned d m1
           /\ det_compressed d = true /\ det_header_size d < 0
  | Diverged => True
  end.
Proof.
  pose proof (commit_paths lib abfd ub usize m) as H.
  destruct (bfd_compress_section_contents lib abfd ub usize m) as [n m'| |];
    [exact (proj2 H) | exact H | exact H].
Qed.

(** X15.  When [bfd_compress_section] or
    [bfd_init_section_compress_status] returns true, the section has
    contents, and its state is [COMPRESS_SECTION_DONE] or it is
    [COMPRESS_SECTION_NONE] with the bytes it had before compression as
    contents: the buffer that was passed, for [bfd_compress_section], and
    the bytes that were read from the section, for
    [bfd_init_section_compress_status]. *)
Theorem compress_success_has_contents (lib : libbfd) (abfd : bfd)
    (uncompressed_buffer : option bytes) (m : machine) :
  match bfd_compress_section lib abfd uncompressed_buffer m with
  | Returned true m' =>
      contents (m_sec m') <> None
      /\ (compress_status (m_sec m') = COMPRESS_SECTION_DONE
          \/ (compress_status (m_sec m') = COMPRESS_SECTION_NONE
              /\ contents (m_sec m') = uncompressed_buffer))
  | _ => True
  end
  /\ match bfd_init_section_compress_status lib abfd m with
     | Returned true m' =>
         contents (m_sec m') <> None
         /\ (compress_status (m_sec m') = COMPRESS_SECTION_DONE
             \/ (compress_status (m_sec m') = COMPRESS_SECTION_NONE
                 /\ exists data,
                      get_section_contents lib abfd (m_sec m) 0
                        (size (m_sec m)) = IoOk data
                      /\ contents (m_sec m')
                         = Some (buf_write (fresh_buffer (size (m_sec m))) 0
                                   data (size (m_sec m)))))
     | _ => True
     end.
Proof.
  split.
  - unfold bfd_compress_section. run_monad.
    case_split; run_monad; [exact I|].
    destruct uncompressed_buffer as [ub|]; run_monad; [|exact I].
    pose proof (commit_paths lib abfd ub (size (m_sec m)) m) as H.
    destruct (bfd_compress_section_contents lib abfd ub (size (m_sec m)) m)
      as [n m'| |]; try exact I.
    destruct H as [_ [(Hn & _) | [(Hc & Hst) | (_ & Hsec)]]].
    + subst n. exact I.
    + destruct (negb (n =? 0)); [|exact I]. split; [exact Hc | left; exact Hst].
    + destruct (negb (n =? 0)); [|exact I]. rewrite Hsec.
      split; [discriminate | right; split; reflexivity].
  - unfold bfd_init_section_compress_status. run_monad.
    case_split; run_monad; [exact I|].
    case_split; run_monad; [|exact I].
    destruct (get_section_contents lib abfd (m_sec m) 0 (size (m_sec m)))
      as [data|e] eqn:Hread; run_monad; [|exact I].
    match goal with
    | |- context [bfd_compress_section_contents ?l ?a ?b ?u ?mm] =>
        pose proof (commit_paths l a b u mm) as H;
        destruct (bfd_compress_section_contents l a b u mm) as [n m'| |]
    end; try exact I.
    destruct H as [_ [(Hn & _) | [(Hc & Hst) | (_ & Hsec)]]].
    + subst n. exact I.
    + destruct (negb (n =? 0)); [|exact I]. split; [exact Hc | left; exact Hst].
    + destruct (negb (n =? 0)); [|exact I]. rewrite Hsec.
      split; [discriminate|]. right. split; [reflexivity|].
      exists data. split; reflexivity.
Qed.

Lemma trace_grew (tr ev : list event) (e : event) : tr <> tr ++ e :: ev.
Proof.
  intros H. apply (f_equal (@length event)) in H.
  rewrite length_app in H. cbn [length] in H. lia.
Qed.

(** X16.  [bfd_compress_section] turns a request down with
    [bfd_error_invalid_operation], without reading, allocating or changing
    the section, exactly when the BFD is not open for writing, or the size
    of the section is zero, or no buffer is passed, or the section has
    contents already, or a compressed size is recorded, or the state is not
    [COMPRESS_SECTION_NONE]. *)
Theorem compress_section_refuses_iff (lib : libbfd) (abfd : bfd)
    (uncompressed_buffer : option bytes) (m : machine) :
  bfd_compress_section lib abfd uncompressed_buffer m
  = Returned false
      {| m_sec := m_sec m; m_error := bfd_error_invalid_operation;
         m_trace := m_trace m |}
  <-> (direction abfd <> write_direction
       \/ size (m_sec m) = 0
       \/ uncompressed_buffer = None
       \/ contents (m_sec m) <> None
       \/ compressed_size (m_sec m) <> 0
       \/ compress_status (m_sec m) <> COMPRESS_SECTION_NONE).
Proof.
  assert (Hpre :
    negb (direction_eqb (direction abfd) write_direction)
    || (size (m_sec m) =? 0)
    || is_NULL uncompressed_buffer
    || negb (is_NULL (contents (m_sec m)))
    || negb (compressed_size (m_sec m) =? 0)
    || negb (is_NONE (compress_status (m_sec m))) = true
    <-> (direction abfd <> write_direction
         \/ size (m_sec m) = 0
         \/ uncompressed_buffer = None
         \/ contents (m_sec m) <> None
         \/ compressed_size (m_sec m) <> 0
         \/ compress_status (m_sec m) <> COMPRESS_SECTION_NONE)).
  { rewrite !orb_true_iff, !negb_true_iff, Z.eqb_eq, Z.eqb_neq.
    assert (H1 : direction_eqb (direction abfd) write_direction = false
                 <-> direction abfd <> write_direction)
      by (destruct (direction abfd); cbn; split; intros; congruence).
    assert (H2 : is_NULL uncompressed_buffer = true
                 <-> uncompressed_buffer = None)
      by (destruct uncompressed_buffer; cbn; split; intros; congruence).
    assert (H3 : is_NULL (contents (m_sec m)) = false
                 <-> contents (m_sec m) <> None)
      by (destruct (contents (m_sec m)); cbn; split; intros; congruence).
    assert (H4 : is_NONE (compress_status (m_sec m)) = false
                 <-> compress_status (m_sec m) <> COMPRESS_SECTION_NONE)
      by (destruct (compress_status (m_sec m)); cbn; split; intros;
          congruence).
    rewrite H1, H2, H3, H4. tauto. }
  rewrite <- Hpre. unfold bfd_compress_section. run_monad.
  destruct (negb (direction_eqb (direction abfd) write_direction) || _ || _
            || _ || _ || _) eqn:Hcond; run_monad.
  - split; reflexivity.
  - split; [|intros H; discriminate H].
    destruct uncompressed_buffer as [ub|];
      [|cbn [is_NULL] in Hcond; rewrite !orb_true_r in Hcond;
        discriminate Hcond].
    run_monad.
    pose proof (commit_paths lib abfd ub (size (m_sec m)) m) as H.
    destruct (bfd_compress_section_contents lib abfd ub (size (m_sec m)) m)
      as [n m'| |]; try discriminate.
    destruct H as [(c & ev & Htr) _]. intros Hrun. exfalso.
    inversion Hrun as [[Hn Hm']]. rewrite Hm' in Htr. cbn [m_trace] in Htr.
    exact (trace_grew _ _ _ Htr).
Qed.

(** X17.  What [bfd_compress_section_contents] does with the two buffers,
    for a section that enters in state [COMPRESS_SECTION_NONE]: the block
    obtained from [bfd_alloc] is kept, and the raw buffer is given to
    [free], exactly when the section leaves in state
    [COMPRESS_SECTION_DONE]; on every other return the block has been
    released (or was never obtained) and the raw buffer has not been
    freed. *)
Theorem commit_buffer_ownership (lib : libbfd) (abfd : bfd) (ub : bytes)
    (usize : Z) (m : machine) :
  compress_status (m_sec m) = COMPRESS_SECTION_NONE ->
  match bfd_compress_section_contents lib abfd ub usize m with
  | Returned n m' =>
      exists ev,
        m_trace m' = m_trace m ++ ev
        /\ alloc_balance lib ev
           = Z.b2z (is_DONE (compress_status (m_sec m')))
        /\ free_count ev = Z.b2z (is_DONE (compress_status (m_sec m')))
  | Aborted | Diverged => True
  end.
Proof.
  intros Hst.
  pose proof (detection_frame lib abfd m) as Hframe.
  unfold bfd_compress_section_contents. unfold bind at 1.
  destruct (bfd_is_section_compressed_with_header lib abfd m)
    as [d m1| |]; [|exact I|exact I].
  destruct Hframe as (Hsec & _ & (count & Htr)).
  rewrite <- Hsec in Hst.
  cbv zeta. run_monad.
  repeat (case_split; run_monad); try exact I;
    rewrite Htr, <- ?app_assoc; (eexists; split; [reflexivity|]);
    cbn [app alloc_balance free_count compress_status with_flags with_size
         with_rawsize with_compressed_size with_alignment_power with_contents
         with_compress_status];
    rewrite ?Hst; cbn [is_DONE Z.b2z]; use_alloc_results;
    split; reflexivity.
Qed.

Lemma commit_buffer_ownership_witness :
  let raw := [x5a; x4c; x49; x42; x00; x00; x00; x00; x00; x00; x00; x0a;
              x0a; x61; x62; x63; x64; x65; x66; x67; x68; x69; x6a] in
  let lib := demo_lib 0 24 raw in
  let abfd := mk_bfd write_direction bfd_target_elf_flavour 0 in
  let m := start (demo_section ".zdebug_info" SEC_HAS_CONTENTS 23
                               COMPRESS_SECTION_NONE) in
  match bfd_compress_section_contents lib abfd raw 23 m with
  | Returned n m' =>
      exists ev,
        m_trace m' = m_trace m ++ ev
        /\ alloc_balance lib ev
           = Z.b2z (is_DONE (compress_status (m_sec m')))
        /\ free_count ev = Z.b2z (is_DONE (compress_status (m_sec m')))
  | Aborted | Diverged => True
  end.
Proof.
  intros raw lib abfd m.
  apply (commit_buffer_ownership lib abfd raw 23 m).
  reflexivity.
Defined.

(** X18.  The commit of a section that is not found compressed, when
    compression pays: the header of the output format is written by the
    format's encoder, which still sees the uncompressed size in the
    section, in front of the compressed bytes; the new buffer becomes the
    contents, the size of the section becomes header size plus compressed
    length, the state [COMPRESS_SECTION_DONE], the raw buffer is freed and
    the raw size is returned. *)
Theorem commit_gain_compresses (lib : libbfd) (abfd : bfd)
    (uncompressed_buffer : bytes) (uncompressed_size : Z)
    (m m1 : machine) (d : detection) (out buf' : bytes) (sec' : asection) :
  let hs0 := bfd_get_compression_header_size lib abfd None in
  let header_size := if hs0 =? 0 then 12 else hs0 in
  let cap := to_size_type (zl_compressBound (zlib_of lib) uncompressed_size
                           + header_size) in
  let new_size := to_size_type (blen out + header_size) in
  bfd_is_section_compressed_with_header lib abfd m = Returned d m1 ->
  det_compressed d = false ->
  alloc_ok lib cap = true ->
  zl_compress (zlib_of lib)
    (firstn (Z.to_nat uncompressed_size) uncompressed_buffer) cap
  = (Z_OK, out) ->
  new_size < uncompressed_size ->
  update_compression_header lib abfd
    (buf_write (fresh_buffer cap) header_size out (blen out)) (m_sec m)
  = (buf', sec') ->
  bfd_compress_section_contents lib abfd uncompressed_buffer
    uncompressed_size m
  = Returned uncompressed_size
      {| m_sec := with_compress_status COMPRESS_SECTION_DONE
                    (with_size new_size (with_contents (Some buf') sec'));
         m_error := m_error m1;
         m_trace := (m_trace m1 ++ [EvAlloc cap]) ++ [EvFree] |}.
Proof.
  intros hs0 header_size cap new_size Hdet Hc Halloc Hcompress Hgain Hupd.
  pose proof (detection_frame lib abfd m) as Hframe.
  rewrite Hdet in Hframe. destruct Hframe as (Hsec & _ & _).
  unfold bfd_compress_section_contents. unfold bind at 1.
  rewrite Hdet, Hc. cbn [andb]. cbv zeta.
  fold hs0. fold header_size. fold cap.
  run_monad. rewrite Halloc. run_monad. rewrite Hcompress.
  change (negb (Z_OK =? Z_OK)) with false. cbv iota.
  fold new_size. apply Z.ltb_lt in Hgain. rewrite Hgain. run_monad.
  rewrite Hsec, Hupd. run_monad. reflexivity.
Qed.

(** X19.  The commit of a section found compressed, when the compressed
    bytes with the header of the output format are not more than the
    uncompressed size: the section size is first set to the uncompressed
    size found in the old header, the format's encoder writes the new
    header at the start of a buffer of the new size, and the compressed
    bytes that followed the old header are moved, as they are, behind the
    new header. *)
Theorem commit_keeps_compressed (lib : libbfd) (abfd : bfd)
    (uncompressed_buffer : bytes) (uncompressed_size : Z)
    (m m1 : machine) (d : detection) (buf' : bytes) (sec' : asection) :
  let hs0 := bfd_get_compression_header_size lib abfd None in
  let header_size := if hs0 =? 0 then 12 else hs0 in
  let orig_header_size :=
    if det_header_size d =? 0 then 12 else det_header_size d in
  let zlib_size :=
    to_int (to_size_type (uncompressed_size - orig_header_size)) in
  let new_size := to_size_type (to_int (zlib_size + header_size)) in
  let orig_size := det_uncompressed_size d in
  bfd_is_section_compressed_with_header lib abfd m = Returned d m1 ->
  det_compressed d = true ->
  0 <= det_header_size d ->
  new_size <= orig_size ->
  alloc_ok lib new_size = true ->
  update_compression_header lib abfd (fresh_buffer new_size)
    (with_size orig_size (m_sec m)) = (buf', sec') ->
  bfd_compress_section_contents lib abfd uncompressed_buffer
    uncompressed_size m
  = Returned uncompressed_size
      {| m_sec := with_compress_status COMPRESS_SECTION_DONE
                    (with_size new_size
                       (with_contents
                          (Some (buf_write buf' header_size
                                   (buf_at uncompressed_buffer orig_header_size)
                                   (to_size_type zlib_size)))
                          sec'));
         m_error := m_error m1;
         m_trace := (m_trace m1 ++ [EvAlloc new_size]) ++ [EvFree] |}.
Proof.
  intros hs0 header_size orig_header_size zlib_size new_size orig_size
         Hdet Hc Hhs Hkeep Halloc Hupd.
  pose proof (detection_frame lib abfd m) as Hframe.
  rewrite Hdet in Hframe. destruct Hframe as (Hsec & _ & _).
  unfold bfd_compress_section_contents. unfold bind at 1.
  rewrite Hdet, Hc. cbn [andb]. cbv zeta.
  fold hs0. fold header_size. fold orig_header_size. fold zlib_size.
  fold new_size. fold orig_size.
  assert (Hneg : (det_header_size d <? 0) = false) by (apply Z.ltb_ge; lia).
  rewrite Hneg.
  apply Z.ltb_ge in Hkeep. rewrite Hkeep.
  run_monad. rewrite Halloc. run_monad.
  rewrite Hsec, Hupd. run_monad. reflexivity.
Qed.

(** X20.  When the fallback decompression of the commit fails, the commit
    releases the new buffer, sets [bfd_error_bad_value] and returns 0
    without touching contents or state; the size of the section, however,
    has already been replaced by the uncompressed size found in the old
    header. *)
Theorem commit_bloat_failure (lib : libbfd) (abfd : bfd)
    (uncompressed_buffer : bytes) (uncompressed_size : Z)
    (m m1 : machine) (d : detection) (out : bytes) :
  let hs0 := bfd_get_compression_header_size lib abfd None in
  let header_size := if hs0 =? 0 then 12 else hs0 in
  let orig_header_size :=
    if det_header_size d =? 0 then 12 else det_header_size d in
  let zlib_size :=
    to_int (to_size_type (uncompressed_size - orig_header_size)) in
  let new_size := to_size_type (to_int (zlib_size + header_size)) in
  let orig_size := det_uncompressed_size d in
  bfd_is_section_compressed_with_header lib abfd m = Returned d m1 ->
  det_compressed d = true ->
  0 <= det_header_size d ->
  orig_size < new_size ->
  alloc_ok lib orig_size = true ->
  decompress_contents (zlib_of lib)
    (buf_at uncompressed_buffer orig_header_size) (to_size_type zlib_size)
    (fresh_buffer orig_size) orig_size = Some (false, out) ->
  bfd_compress_section_contents lib abfd uncompressed_buffer
    uncompressed_size m
  = Returned 0
      {| m_sec := with_size orig_size (m_sec m);
         m_error := bfd_error_bad_value;
         m_trace := (m_trace m1 ++ [EvAlloc orig_size]) ++ [EvRelease] |}.
Proof.
  intros hs0 header_size orig_header_size zlib_size new_size orig_size
         Hdet Hc Hhs Hbloat Halloc Hdec.
  pose proof (detection_frame lib abfd m) as Hframe.
  rewrite Hdet in Hframe. destruct Hframe as (Hsec & _ & _).
  unfold bfd_compress_section_contents. unfold bind at 1.
  rewrite Hdet, Hc. cbn [andb]. cbv zeta.
  fold hs0. fold header_size. fold orig_header_size. fold zlib_size.
  fold new_size. fold orig_size.
  assert (Hneg : (det_header_size d <? 0) = false) by (apply Z.ltb_ge; lia).
  rewrite Hneg.
  apply Z.ltb_lt in Hbloat. rewrite Hbloat.
  run_monad. rewrite Halloc. run_monad. rewrite Hdec. run_monad.
  rewrite Hsec. reflexivity.
Qed.

Lemma commit_gain_compresses_witness :
  let raw := repeat x41 20 in
  let lib := run_lib 0 0 raw in
  let abfd := mk_bfd write_direction bfd_target_elf_flavour 0 in
  let sec := demo_section ".debug_info" SEC_HAS_CONTENTS 20
                          COMPRESS_SECTION_NONE in
  bfd_compress_section_contents lib abfd raw 20 (start sec)
  = Returned 20
      {| m_sec := with_compress_status COMPRESS_SECTION_DONE
                    (with_size 14
                       (with_contents
                          (Some (ZLIB_magic ++ demo_putb64 20 ++ [x14; x41]
                                 ++ repeat x00 20))
                          (with_alignment_power 0 sec)));
         m_error := bfd_error_no_error;
         m_trace := [EvRead 0 12; EvAlloc 34; EvFree] |}.
Proof.
  intros raw lib abfd sec.
  apply (commit_gain_compresses lib abfd raw 20 (start sec)
           {| m_sec := sec; m_error := bfd_error_no_error;
              m_trace := [EvRead 0 12] |}
           (mk_detection false 0 20 0) [x14; x41]).
  - reflexivity.
  - reflexivity.
  - reflexivity.
  - reflexivity.
  - reflexivity.
  - reflexivity.
Defined.

Lemma commit_keeps_compressed_witness :
  let raw := [x5a; x4c; x49; x42; x00; x00; x00; x00; x00; x00; x00; x28;
              x28; x41] in
  let lib := run_lib 0 24 raw in
  let abfd := mk_bfd write_direction bfd_target_elf_flavour 0 in
  let sec := demo_section ".zdebug_info" SEC_HAS_CONTENTS 14
                          COMPRESS_SECTION_NONE in
  bfd_compress_section_contents lib abfd raw 14 (start sec)
  = Returned 14
      {| m_sec := with_compress_status COMPRESS_SECTION_DONE
                    (with_size 26
                       (with_contents
                          (Some ([x01] ++ repeat x00 7 ++ demo_putb64 40
                                 ++ repeat x00 8 ++ [x28; x41]))
                          (with_size 40 sec)));
         m_error := bfd_error_no_error;
         m_trace := [EvRead 0 12; EvAlloc 26; EvFree] |}.
Proof.
  intros raw lib abfd sec.
  apply (commit_keeps_compressed lib abfd raw 14 (start sec)
           {| m_sec := sec; m_error := bfd_error_no_error;
              m_trace := [EvRead 0 12] |}
           (mk_detection true 0 40 0)
           ([x01] ++ repeat x00 7 ++ demo_putb64 40 ++ repeat x00 10)).
  - reflexivity.
  - reflexivity.
  - vm_compute. discriminate.
  - vm_compute. discriminate.
  - reflexivity.
  - reflexivity.
Defined.

Lemma commit_bloat_failure_witness :
  let raw := [x5a; x4c; x49; x42; x00; x00; x00; x00; x00; x00; x00; x0a;
              x0a; x61] in
  let lib := demo_lib 0 0 raw in
  let abfd := mk_bfd write_direction bfd_target_elf_flavour 0 in
  let sec := demo_section ".zdebug_info" SEC_HAS_CONTENTS 14
                          COMPRESS_SECTION_NONE in
  bfd_compress_section_contents lib abfd raw 14 (start sec)
  = Returned 0
      {| m_sec := with_size 10 sec;
         m_error := bfd_error_bad_value;
         m_trace := [EvRead 0 12; EvAlloc 10; EvRelease] |}.
Proof.
  intros raw lib abfd sec.
  apply (commit_bloat_failure lib abfd raw 14 (start sec)
           {| m_sec := sec; m_error := bfd_error_no_error;
              m_trace := [EvRead 0 12] |}
           (mk_detection true 0 10 0) (repeat x00 10)).
  - reflexivity.
  - reflexivity.
  - vm_compute. discriminate.
  - reflexivity.
  - reflexivity.
  - reflexivity.
Defined.

(** With nothing to read or nothing to store, [decompress_contents] makes
    no call of [inflate]. *)
Lemma decompress_contents_nothing_to_do_run (zl : zlib)
    (cb : bytes) (csize : Z) (ub : bytes) (usize : Z) :
  to_uInt csize = 0 \/ to_uInt usize = 0 ->
  decompress_contents zl cb csize ub usize
  = Some ((zl_inflateInit zl =? Z_OK) && (to_uInt usize =? 0), ub).
Proof.
  intros Hzero. unfold decompress_contents. cbn [avail_in inflate_loop avail_out].
  assert (Hcond : (0 <? to_uInt csize) && (0 <? to_uInt usize) = false).
  { destruct Hzero as [-> | ->]; [reflexivity | apply andb_false_r]. }
  rewrite Hcond. unfold inflateEnd.
  destruct (zl_inflateInit zl =? Z_OK); reflexivity.
Qed.

(** X21.  A compressed section whose old header announces an uncompressed
    size of zero: the commit takes the fallback, "decompresses" into an
    empty buffer without a call of [inflate], stores it with state
    [COMPRESS_SECTION_DONE] and returns the uncompressed size, 0, the value
    that also stands for failure, so that [bfd_compress_section] returns
    false for a section it has committed. *)
Theorem commit_of_empty_original (lib : libbfd) (abfd : bfd)
    (ub : bytes) (m m1 : machine) (d : detection) :
  let usize := size (m_sec m) in
  let hs0 := bfd_get_compression_header_size lib abfd None in
  let header_size := if hs0 =? 0 then 12 else hs0 in
  let orig_header_size :=
    if det_header_size d =? 0 then 12 else det_header_size d in
  let zlib_size := to_int (to_size_type (usize - orig_header_size)) in
  let new_size := to_size_type (to_int (zlib_size + header_size)) in
  let m' := {| m_sec := with_compress_status COMPRESS_SECTION_DONE
                          (with_contents (Some [])
                             (with_alignment_power (det_align_pow d)
                                (with_size 0 (m_sec m))));
               m_error := m_error m1;
               m_trace := (m_trace m1 ++ [EvAlloc 0]) ++ [EvFree] |} in
  bfd_is_section_compressed_with_header lib abfd m = Returned d m1 ->
  det_compressed d = true ->
  0 <= det_header_size d ->
  det_uncompressed_size d = 0 ->
  0 < new_size ->
  alloc_ok lib 0 = true ->
  zl_inflateInit (zlib_of lib) = Z_OK ->
  direction abfd = write_direction ->
  usize <> 0 ->
  contents (m_sec m) = None ->
  compressed_size (m_sec m) = 0 ->
  compress_status (m_sec m) = COMPRESS_SECTION_NONE ->
  bfd_compress_section_contents lib abfd ub usize m = Returned 0 m'
  /\ bfd_compress_section lib abfd (Some ub) m = Returned false m'.
Proof.
  intros usize hs0 header_size orig_header_size zlib_size new_size m'
         Hdet Hc Hhs Hzero Hbloat Halloc Hinit Hdir Hsz Hct Hcs Hst.
  assert (Hcommit : bfd_compress_section_contents lib abfd ub usize m
                    = Returned 0 m').
  { pose proof (detection_frame lib abfd m) as Hframe.
    rewrite Hdet in Hframe. destruct Hframe as (Hsec & _ & _).
    unfold bfd_compress_section_contents. unfold bind at 1.
    rewrite Hdet, Hc. cbn [andb]. cbv zeta.
    fold hs0. fold header_size. fold orig_header_size. fold zlib_size.
    fold new_size.
    assert (Hneg : (det_header_size d <? 0) = false) by (apply Z.ltb_ge; lia).
    rewrite Hneg, Hzero.
    apply Z.ltb_lt in Hbloat. rewrite Hbloat.
    run_monad. rewrite Halloc. run_monad.
    rewrite (decompress_contents_nothing_to_do_run (zlib_of lib))
      by (right; reflexivity).
    rewrite Hinit. change ((Z_OK =? Z_OK) && (to_uInt 0 =? 0)) with true.
    run_monad. rewrite Hsec. reflexivity. }
  split; [exact Hcommit|].
  unfold bfd_compress_section. run_monad. fold usize.
  rewrite Hdir, Hct, Hcs, Hst. apply Z.eqb_neq in Hsz. rewrite Hsz.
  cbn [direction_eqb negb orb is_NULL is_NONE]. change (0 =? 0) with true.
  cbn [negb orb]. run_monad. fold usize. rewrite Hcommit. reflexivity.
Qed.

Lemma commit_of_empty_original_witness :
  let raw := [x5a; x4c; x49; x42; x00; x00; x00; x00; x00; x00; x00; x00;
              x00] in
  let lib := demo_lib 0 0 raw in
  let abfd := mk_bfd write_direction bfd_target_elf_flavour 0 in
  let sec := demo_section ".zdebug_info" SEC_HAS_CONTENTS 13
                          COMPRESS_SECTION_NONE in
  let m' := {| m_sec := with_compress_status COMPRESS_SECTION_DONE
                          (with_contents (Some [])
                             (with_alignment_power 0 (with_size 0 sec)));
               m_error := bfd_error_no_error;
               m_trace := [EvRead 0 12; EvAlloc 0; EvFree] |} in
  bfd_compress_section_contents lib abfd raw 13 (start sec) = Returned 0 m'
  /\ bfd_compress_section lib abfd (Some raw) (start sec) = Returned false m'.
Proof.
  intros raw lib abfd sec.
  apply (commit_of_empty_original lib abfd raw (start sec)
           {| m_sec := sec; m_error := bfd_error_no_error;
              m_trace := [EvRead 0 12] |}
           (mk_detection true 0 0 0)).
  - reflexivity.
  - reflexivity.
  - vm_compute. discriminate.
  - reflexivity.
  - reflexivity.
  - reflexivity.
  - reflexivity.
  - reflexivity.
  - vm_compute. discriminate.
  - reflexivity.
  - reflexivity.
  - reflexivity.
Defined.

(* ================================================================== *)
(** * Properties of bfd_init_section_compress_status *)

(** X22.  [bfd_init_section_compress_status] turns a request down with
    [bfd_error_invalid_operation], without allocating, reading or changing
    the section, exactly when the BFD is not open for reading, or the size
    of the section is zero, or a raw size is recorded, or the section has
    contents, or its state is not [COMPRESS_SECTION_NONE]. *)
Theorem compress_status_refuses_iff (lib : libbfd) (abfd : bfd) (m : machine) :
  bfd_init_section_compress_status lib abfd m
  = Returned false
      {| m_sec := m_sec m; m_error := bfd_error_invalid_operation;
         m_trace := m_trace m |}
  <-> (direction abfd <> read_direction
       \/ size (m_sec m) = 0
       \/ rawsize (m_sec m) <> 0
       \/ contents (m_sec m) <> None
       \/ compress_status (m_sec m) <> COMPRESS_SECTION_NONE).
Proof.
  assert (Hpre :
    negb (direction_eqb (direction abfd) read_direction)
    || (size (m_sec m) =? 0)
    || negb (rawsize (m_sec m) =? 0)
    || negb (is_NULL (contents (m_sec m)))
    || negb (is_NONE (compress_status (m_sec m))) = true
    <-> (direction abfd <> read_direction
         \/ size (m_sec m) = 0
         \/ rawsize (m_sec m) <> 0
         \/ contents (m_sec m) <> None
         \/ compress_status (m_sec m) <> COMPRESS_SECTION_NONE)).
  { rewrite !orb_true_iff, !negb_true_iff, Z.eqb_eq, Z.eqb_neq.
    assert (H1 : direction_eqb (direction abfd) read_direction = false
                 <-> direction abfd <> read_direction)
      by (destruct (direction abfd); cbn; split; intros; congruence).
    assert (H3 : is_NULL (contents (m_sec m)) = false
                 <-> contents (m_sec m) <> None)
      by (destruct (contents (m_sec m)); cbn; split; intros; congruence).
    assert (H4 : is_NONE (compress_status (m_sec m)) = false
                 <-> compress_status (m_sec m) <> COMPRESS_SECTION_NONE)
      by (destruct (compress_status (m_sec m)); cbn; split; intros;
          congruence).
    rewrite H1, H3, H4. tauto. }
  rewrite <- Hpre. unfold bfd_init_section_compress_status. run_monad.
  destruct (negb (direction_eqb (direction abfd) read_direction) || _ || _
            || _ || _) eqn:Hcond; run_monad.
  - split; reflexivity.
  - split; [|intros H; discriminate H].
    intros Hrun. exfalso. revert Hrun.
    repeat (first
              [ match goal with
                | |- context [bfd_compress_section_contents ?l ?a ?b ?u ?mm] =>
                    pose proof (commit_paths l a b u mm) as Hpaths;
                    destruct (bfd_compress_section_contents l a b u mm)
                      as [n m'| |]
                end
              | case_split ]; run_monad);
      intros Hrun; try discriminate Hrun; inversion Hrun;
      try (destruct Hpaths as [(c & ev & Htr) _]; subst m';
           cbn [m_trace] in Htr);
      match goal with
      | Htr : _ = _ :> list event |- _ =>
          apply (f_equal (@length event)) in Htr;
          rewrite ?length_app in Htr; cbn [length] in Htr; lia
      end.
Qed.

(** X23.  When the read of the section fails in
    [bfd_init_section_compress_status], the function returns false with the
    error of the read and the section as it was, and the buffer it obtained
    from [bfd_malloc] for the contents is not given to [free]. *)
Theorem compress_status_read_failure (lib : libbfd) (abfd : bfd) (m : machine)
    (e : bfd_error) :
  direction abfd = read_direction ->
  size (m_sec m) <> 0 ->
  rawsize (m_sec m) = 0 ->
  contents (m_sec m) = None ->
  compress_status (m_sec m) = COMPRESS_SECTION_NONE ->
  malloc_ok lib (size (m_sec m)) = true ->
  get_section_contents lib abfd (m_sec m) 0 (size (m_sec m)) = IoFail e ->
  exists ev,
    bfd_init_section_compress_status lib abfd m
    = Returned false
        {| m_sec := m_sec m; m_error := e; m_trace := m_trace m ++ ev |}
    /\ malloc_balance lib ev = 1
    /\ free_count ev = 0.
Proof.
  intros Hdir Hsz Hrs Hct Hst Hmalloc Hread.
  exists [EvMalloc (size (m_sec m)); EvRead 0 (size (m_sec m))].
  split.
  - unfold bfd_init_section_compress_status. run_monad.
    rewrite Hdir, Hrs, Hct, Hst. apply Z.eqb_neq in Hsz. rewrite Hsz.
    cbn [direction_eqb negb orb is_NULL is_NONE]. change (0 =? 0) with true.
    cbn [negb orb]. run_monad. rewrite Hmalloc. run_monad.
    rewrite Hread. run_monad. rewrite <- app_assoc. reflexivity.
  - cbn [malloc_balance free_count]. rewrite Hmalloc. split; reflexivity.
Qed.

Lemma compress_status_read_failure_witness :
  let lib := unreadable_lib bfd_error_system_call in
  let abfd := mk_bfd read_direction bfd_target_elf_flavour 2 in
  let m := start (demo_section ".debug_info" SEC_HAS_CONTENTS 4
                               COMPRESS_SECTION_NONE) in
  exists ev,
    bfd_init_section_compress_status lib abfd m
    = Returned false
        {| m_sec := m_sec m; m_error := bfd_error_system_call;
           m_trace := m_trace m ++ ev |}
    /\ malloc_balance lib ev = 1
    /\ free_count ev = 0.
Proof.
  intros lib abfd m.
  apply (compress_status_read_failure lib abfd m bfd_error_system_call).
  - reflexivity.
  - vm_compute. discriminate.
  - reflexivity.
  - reflexivity.
  - reflexivity.
  - reflexivity.
  - reflexivity.
Defined.
